(** * PoDoFo encryption subsystem: a shallow embedding of [PdfEncrypt.cpp]

    The development follows [src/podofo/main/PdfEncrypt.cpp]: the password
    preprocessor, the MD5/RC4 and SHA-2/AES key derivations, the per-object
    key, authentication, the stream-length accounting and the encryption
    dictionary codec.  Bytes are [Byte.byte], buffers are [list byte],
    unsigned counters and lengths are [nat], 32/64-bit quantities on which
    the code does bit arithmetic are [Z] with the wrap-around written out,
    and every [PODOFO_RAISE_ERROR] is a [Raise] in the [result] monad.

    The primitives of the crypto backend (MD5, SHA-2, AES), the C library
    generator [rand]/[srand] and SASLprep are not part of the program: they
    are the fields of the [Backend] interface.  RC4 is the cipher that the
    program implements itself in [PdfRC4Stream]; the EVP RC4 calls are
    modelled by that implementation. *)

From Stdlib Require Import ZArith Lia Bool.
From Stdlib Require Import Init.Byte Strings.Byte.
From stdpp Require Import base tactics option list gmap strings.

#[local] Open Scope Z_scope.
#[local] Set Warnings "-register-all".

(** ** Bytes *)

#[export] Instance byte_inhabited : Inhabited byte := populate x00.
#[export] Instance byte_eq_dec : EqDecision byte := Byte.byte_eq_dec.

(** [static_cast<unsigned char>(n)] for an unsigned [n]. *)
Definition byte_of_nat (n : nat) : byte :=
  default x00 (Byte.of_nat (n mod 256)%nat).

Definition nat_of_byte (b : byte) : nat := Byte.to_nat b.

(** [static_cast<unsigned char>(z)] for a (possibly wide) integer [z]. *)
Definition byte_of_Z (z : Z) : byte := byte_of_nat (Z.to_nat (z mod 256)).

Definition Z_of_byte (b : byte) : Z := Z.of_nat (nat_of_byte b).

Definition bits8 : Type :=
  (bool * (bool * (bool * (bool * (bool * (bool * (bool * bool)))))))%type.

Definition xor_bits8 (x y : bits8) : bits8 :=
  let '(x0, (x1, (x2, (x3, (x4, (x5, (x6, x7))))))) := x in
  let '(y0, (y1, (y2, (y3, (y4, (y5, (y6, y7))))))) := y in
  (xorb x0 y0, (xorb x1 y1, (xorb x2 y2, (xorb x3 y3,
   (xorb x4 y4, (xorb x5 y5, (xorb x6 y6, xorb x7 y7))))))).

(** The C operator [^] on two [unsigned char]. *)
Definition byte_xor (a b : byte) : byte :=
  Byte.of_bits (xor_bits8 (Byte.to_bits a) (Byte.to_bits b)).

(** ** Errors *)

Inductive PdfErrorCode : Set :=
| InvalidHandle
| InvalidDataType
| InvalidEnumValue
| NoObject
| OutOfMemory
| UnexpectedEOF
| UnsupportedFilter
| InvalidEncryptionDict
| InvalidPassword
| InternalLogic
| NotImplemented.

#[export] Instance PdfErrorCode_eq_dec : EqDecision PdfErrorCode.
Proof. solve_decision. Defined.

Inductive result (A : Type) : Type :=
| Ok (a : A)
| Raise (e : PdfErrorCode).
Arguments Ok {A} a.
Arguments Raise {A} e.

#[export] Instance result_ret : MRet result := λ A a, Ok a.
#[export] Instance result_bind : MBind result := λ A B f m,
  match m with
  | Ok a => f a
  | Raise e => Raise e
  end.

(** A [for] loop over the index list [l] whose body may raise. *)
Fixpoint for_each {A S : Type} (body : S → A → result S) (l : list A) (s : S)
  : result S :=
  match l with
  | [] => Ok s
  | x :: l' => s' ← body s x; for_each body l' s'
  end.

(** ** The backend interface *)

Class Backend : Type := {
  (** [ssl::MD5] through the EVP digest calls, and [ssl::ComputeMD5] *)
  MD5 : list byte → list byte;
  SHA256 : list byte → list byte;
  SHA384 : list byte → list byte;
  SHA512 : list byte → list byte;
  (** [EVP_EncryptInit_ex(Aes128, key, iv)] followed by one
      [EVP_EncryptUpdate] on whole blocks, never finalised *)
  Aes128CbcUpdate : list byte → list byte → list byte → list byte;
  (** AES-256-CBC, zero IV, padding disabled *)
  Aes256Wrap : list byte → list byte → list byte;
  Aes256Unwrap : list byte → list byte → list byte;
  (** AES-CBC with PKCS padding, 16 or 32 byte key, explicit IV *)
  AesCbcEncrypt : list byte → list byte → list byte → list byte;
  AesCbcDecrypt : list byte → list byte → list byte → option (list byte);
  (** [ssl::Rc4() != nullptr] *)
  hasRc4 : bool;
  (** [sprep::TrySASLprep] *)
  TrySASLprep : list byte → option (list byte);
  (** the C library generator *)
  RandState : Type;
  srand : Z → RandState;
  rand : RandState → Z * RandState
}.

(** What the program relies on: the digest sizes. *)
Class BackendLaws (ssl : Backend) : Prop := {
  MD5_length : ∀ m, length (MD5 m) = 16%nat;
  SHA256_length : ∀ m, length (SHA256 m) = 32%nat;
  SHA384_length : ∀ m, length (SHA384 m) = 48%nat;
  SHA512_length : ∀ m, length (SHA512 m) = 64%nat
}.

(** ** RC4: [PdfRC4Stream] *)

Record PdfRC4Stream : Type := {
  m_rc4 : list byte;
  m_a : nat;
  m_b : nat
}.

(** One iteration of the key-schedule loop of the constructor. *)
Definition rc4_schedule_step (key : list byte) (keylen : nat)
    (st : list byte * nat) (i : nat) : list byte * nat :=
  let '(rc4, j) := st in
  let t := nat_of_byte (rc4 !!! i) in
  let j := ((j + t + nat_of_byte (key !!! (i mod keylen)%nat)) mod 256)%nat in
  let rc4 := <[i := rc4 !!! j]> rc4 in
  let rc4 := <[j := byte_of_nat t]> rc4 in
  (rc4, j).

Definition rc4_schedule (key : list byte) (keylen : nat) : list byte :=
  let init := byte_of_nat <$> seq 0 256 in
  fst (foldl (rc4_schedule_step key keylen) (init, 0%nat) (seq 0 256)).

(** The cache of the last key and state table, [RC4EncryptContext]. *)
Record RC4EncryptContext : Type := {
  Rc4key : list byte;
  Rc4last : list byte
}.

(** [memcmp(key, rc4key, keylen) != 0] *)
Definition memcmp_differs (a b : list byte) (n : nat) : bool :=
  negb (bool_decide (take n a = take n b)).

(** [memcpy(dst, src, n)] into an existing buffer. *)
Definition memcpy (dst src : list byte) (n : nat) : list byte :=
  take n src ++ drop n dst.

Definition PdfRC4Stream_new (cache : RC4EncryptContext) (key : list byte)
    (keylen : nat) : PdfRC4Stream * RC4EncryptContext :=
  if memcmp_differs key (Rc4key cache) keylen then
    let rc4 := rc4_schedule key keylen in
    ({| m_rc4 := rc4; m_a := 0; m_b := 0 |},
     {| Rc4key := memcpy (Rc4key cache) key keylen; Rc4last := rc4 |})
  else
    ({| m_rc4 := Rc4last cache; m_a := 0; m_b := 0 |}, cache).

(** One iteration of the loop of [PdfRC4Stream::Encrypt]: the new state and
    the key-stream byte [k]. *)
Definition rc4_next (s : PdfRC4Stream) : PdfRC4Stream * byte :=
  let a := ((m_a s + 1) mod 256)%nat in
  let t := nat_of_byte (m_rc4 s !!! a) in
  let b := ((m_b s + t) mod 256)%nat in
  let rc4 := <[a := m_rc4 s !!! b]> (m_rc4 s) in
  let rc4 := <[b := byte_of_nat t]> rc4 in
  let k := rc4 !!! ((nat_of_byte (rc4 !!! a) + nat_of_byte (rc4 !!! b)) mod 256)%nat in
  ({| m_rc4 := rc4; m_a := a; m_b := b |}, k).

Fixpoint PdfRC4Stream_Encrypt (s : PdfRC4Stream) (buffer : list byte)
  : PdfRC4Stream * list byte :=
  match buffer with
  | [] => (s, [])
  | x :: buffer' =>
      let '(s, k) := rc4_next s in
      let '(s, out) := PdfRC4Stream_Encrypt s buffer' in
      (s, byte_xor x k :: out)
  end.

Section WithBackend.
Context {ssl : Backend}.

(** [RC4Encrypt]: the EVP RC4 cipher keyed with [keylen] bytes of [key],
    applied to [textlen] bytes of [textin].  The engine cannot be set up
    when the backend has no RC4 or when the key is empty. *)
Definition RC4Encrypt (key : list byte) (keylen : nat) (textin : list byte)
    (textlen textoutlen : nat) : result (list byte) :=
  if negb (textlen =? textoutlen)%nat then Raise InternalLogic
  else if negb hasRc4 then Raise InternalLogic
  else if (keylen =? 0)%nat then Raise InternalLogic
  else
    let s :=
      {| m_rc4 := rc4_schedule (take keylen key) keylen; m_a := 0; m_b := 0 |} in
    Ok (snd (PdfRC4Stream_Encrypt s (take textlen textin))).

(** ** Password preprocessor, legacy generations *)

Definition padding : list byte :=
  [x28; xbf; x4e; x5e; x4e; x75; x8a; x41; x64; x00; x4e; x56; xff; xfa; x01; x08;
   x2e; x2e; x00; xb6; xd0; x68; x3e; x80; x2f; x0c; xa9; xfe; x64; x53; x69; x7a].

Definition PadPassword (password : list byte) : list byte :=
  let m := Nat.min (length password) 32 in
  take m password ++ take (32 - m) padding.

(** ** Family A key derivation: [PdfEncryptMD5Base] *)

Definition md5_rehash (keyLength : nat) (digest : list byte) : list byte :=
  Nat.iter 50 (λ d, MD5 (take keyLength d)) digest.

(** [mkey[j] = digest[j] ^ i] for [j < keyLength] *)
Definition xor_key (digest : list byte) (keyLength i : nat) : list byte :=
  (λ d, byte_xor d (byte_of_nat i)) <$> take keyLength digest.

Definition ComputeOwnerKey (userPad ownerPad : list byte)
    (keyLength revision : nat) (authenticate : bool) : result (list byte) :=
  let digest := MD5 (take 32 ownerPad) in
  if bool_decide (revision = 3%nat ∨ revision = 4%nat) then
    let digest := md5_rehash keyLength digest in
    for_each
      (λ ownerKey i,
         let mkey :=
           if authenticate then xor_key digest keyLength (19 - i)
           else xor_key digest keyLength i in
         RC4Encrypt mkey keyLength ownerKey 32 32)
      (seq 0 20) (take 32 userPad)
  else
    RC4Encrypt digest 5 userPad 32 32.


(** [ComputeEncryptionKey] fills the 32 bytes of [userKey] and overwrites
    the first [keyLength] bytes of the [encryptionKey] buffer; it returns
    both. *)
Definition ComputeEncryptionKey (documentId userPad ownerKey : list byte)
    (pValue : Z) (keyLength revision : nat) (encryptMetadata : bool)
    (encryptionKey : list byte) : result (list byte * list byte) :=
  let ext := [byte_of_Z (Z.land (Z.shiftr pValue 0) 255);
              byte_of_Z (Z.land (Z.shiftr pValue 8) 255);
              byte_of_Z (Z.land (Z.shiftr pValue 16) 255);
              byte_of_Z (Z.land (Z.shiftr pValue 24) 255)] in
  let noMetaAddition := if encryptMetadata then [] else [xff; xff; xff; xff] in
  let digest :=
    MD5 (take 32 userPad ++ take 32 ownerKey ++ ext ++ documentId
         ++ noMetaAddition) in
  let digest :=
    if bool_decide (revision = 3%nat ∨ revision = 4%nat)
    then md5_rehash keyLength digest else digest in
  let encryptionKey := memcpy encryptionKey digest keyLength in
  if bool_decide (revision = 3%nat ∨ revision = 4%nat) then
    let digest := MD5 (take 32 padding ++ documentId) in
    let userKey := take 16 digest ++ replicate 16 x00 in
    userKey ←
      for_each
        (λ userKey k,
           out ← RC4Encrypt (xor_key encryptionKey keyLength k) keyLength
                   userKey 16 16;
           Ok (memcpy userKey out 16))
        (seq 0 20) userKey;
    Ok (userKey, encryptionKey)
  else
    userKey ← RC4Encrypt encryptionKey keyLength padding 32 32;
    Ok (userKey, encryptionKey).

(** ** Algorithm descriptors *)

(** [PdfEncryptionAlgorithm], a flag enumeration. *)
Inductive PdfEncryptionAlgorithm : Set :=
| AlgNone | RC4V1 | RC4V2 | AESV2 | AESV3R5 | AESV3R6.

#[export] Instance PdfEncryptionAlgorithm_eq_dec :
  EqDecision PdfEncryptionAlgorithm.
Proof. solve_decision. Defined.

Definition algorithm_flag (a : PdfEncryptionAlgorithm) : Z :=
  match a with
  | AlgNone => 0 | RC4V1 => 1 | RC4V2 => 2 | AESV2 => 4
  | AESV3R5 => 8 | AESV3R6 => 16
  end.

Inductive PdfAuthResult : Set := Unkwnon | Failed | User | Owner.

#[export] Instance PdfAuthResult_eq_dec : EqDecision PdfAuthResult.
Proof. solve_decision. Defined.

(** [PdfKeyLength]: the key length in bits, [Unknown] being 0. *)
Definition Unknown : nat := 0.
Definition L40 : nat := 40.
Definition L128 : nat := 128.
Definition L256 : nat := 256.

Definition PERMS_DEFAULT : Z := 0xFFFFF0C0.
Definition AES_IV_LENGTH : nat := 16.

(** The members of the base class [PdfEncrypt]. *)
Record PdfEncrypt : Type := {
  m_Algorithm : PdfEncryptionAlgorithm;
  m_rValue : nat;
  m_KeyLength : nat;
  m_pValue : Z;
  m_uValue : list byte;
  m_oValue : list byte;
  m_EncryptMetadata : bool;
  m_IsParsed : bool;
  m_initialized : bool;
  m_userPass : list byte;
  m_ownerPass : list byte
}.

(** [PdfEncryptAESV3] adds the wrapped keys and the permission echo. *)
Record PdfEncryptAESV3 : Type := {
  aesv3_base : PdfEncrypt;
  m_ueValue : list byte;
  m_oeValue : list byte;
  m_permsValue : list byte
}.

(** A [unique_ptr<PdfEncrypt>]: the dynamic class and its members. *)
Inductive PdfEncryptPtr : Type :=
| EncRC4 (e : PdfEncrypt)
| EncAESV2 (e : PdfEncrypt)
| EncAESV3 (e : PdfEncryptAESV3).

Definition base (p : PdfEncryptPtr) : PdfEncrypt :=
  match p with
  | EncRC4 e | EncAESV2 e => e
  | EncAESV3 e => aesv3_base e
  end.

Definition zeros (n : nat) : list byte := replicate n x00.

(** [PdfEncrypt::PdfEncrypt()] *)
Definition PdfEncrypt_new : PdfEncrypt :=
  {| m_Algorithm := AlgNone; m_rValue := 0; m_KeyLength := 0; m_pValue := 0;
     m_uValue := zeros 48; m_oValue := zeros 48; m_EncryptMetadata := false;
     m_IsParsed := false; m_initialized := false;
     m_userPass := []; m_ownerPass := [] |}.

Definition InitFromValues (this : PdfEncrypt)
    (algorithm : PdfEncryptionAlgorithm) (keyLength revision : nat)
    (pValue : Z) (uValue oValue : list byte) (uSize oSize : nat)
    (encryptedMetadata : bool) : PdfEncrypt :=
  {| m_Algorithm := algorithm; m_rValue := revision; m_KeyLength := keyLength;
     m_pValue := pValue;
     m_uValue := memcpy (m_uValue this) uValue uSize;
     m_oValue := memcpy (m_oValue this) oValue oSize;
     m_EncryptMetadata := encryptedMetadata;
     m_IsParsed := true; m_initialized := true;
     m_userPass := m_userPass this; m_ownerPass := m_ownerPass this |}.

Definition InitFromScratch (this : PdfEncrypt)
    (userPassword ownerPassword : list byte)
    (algorithm : PdfEncryptionAlgorithm) (keyLength revision : nat)
    (pValue : Z) (encryptedMetadata : bool) : PdfEncrypt :=
  {| m_Algorithm := algorithm; m_rValue := revision; m_KeyLength := keyLength;
     m_pValue := pValue;
     m_uValue := m_uValue this; m_oValue := m_oValue this;
     m_EncryptMetadata := encryptedMetadata;
     m_IsParsed := m_IsParsed this; m_initialized := m_initialized this;
     m_userPass := userPassword; m_ownerPass := ownerPassword |}.

Definition GetKeyLengthBytes (e : PdfEncrypt) : nat := (m_KeyLength e / 8)%nat.

Definition CheckKey (e : PdfEncrypt) (key1 key2 : list byte) : bool :=
  foldl (λ success k, success && bool_decide (key1 !!! k = key2 !!! k))
    true (seq 0 (GetKeyLengthBytes e)).

(** [PdfEncrypt::clearSensitiveInfo] *)
Definition clearSensitiveInfo (e : PdfEncrypt) : PdfEncrypt :=
  {| m_Algorithm := m_Algorithm e; m_rValue := m_rValue e;
     m_KeyLength := m_KeyLength e; m_pValue := m_pValue e;
     m_uValue := m_uValue e; m_oValue := m_oValue e;
     m_EncryptMetadata := m_EncryptMetadata e;
     m_IsParsed := m_IsParsed e; m_initialized := m_initialized e;
     m_userPass := zeros (length (m_userPass e));
     m_ownerPass := zeros (length (m_ownerPass e)) |}.


(** ** Construction from plaintext passwords *)

Definition GetEnabledEncryptionAlgorithms : Z :=
  let enabled := algorithm_flag AESV2 in
  let enabled :=
    if hasRc4
    then Z.lor enabled (Z.lor (algorithm_flag RC4V1) (algorithm_flag RC4V2))
    else enabled in
  Z.lor enabled (Z.lor (algorithm_flag AESV3R5) (algorithm_flag AESV3R6)).

Definition IsEncryptionEnabled (algorithm : PdfEncryptionAlgorithm) : bool :=
  negb (Z.land GetEnabledEncryptionAlgorithms (algorithm_flag algorithm) =? 0).

(** The key lengths accepted for RC4V2: [L40], [L48], ..., [L128]. *)
Definition rc4v2_key_lengths : list nat :=
  [40; 48; 56; 64; 72; 80; 88; 96; 104; 112; 120; 128]%nat.

(** [PdfEncryptRC4::PdfEncryptRC4(userPassword, ownerPassword, protection,
    algorithm, keyLength)] *)
Definition PdfEncryptRC4_create (userPassword ownerPassword : list byte)
    (protection : Z) (algorithm : PdfEncryptionAlgorithm) (keyLength : nat)
  : result PdfEncrypt :=
  match algorithm with
  | RC4V1 =>
      if bool_decide (keyLength = Unknown) then
        Ok (InitFromScratch PdfEncrypt_new userPassword ownerPassword
              algorithm L40 2 (Z.lor PERMS_DEFAULT protection) true)
      else if bool_decide (keyLength ≠ L40) then Raise InvalidEncryptionDict
      else
        Ok (InitFromScratch PdfEncrypt_new userPassword ownerPassword
              algorithm keyLength 2 (Z.lor PERMS_DEFAULT protection) true)
  | RC4V2 =>
      if bool_decide (keyLength = Unknown) then
        Ok (InitFromScratch PdfEncrypt_new userPassword ownerPassword
              algorithm L128 3 (Z.lor PERMS_DEFAULT protection) true)
      else if bool_decide (keyLength ∈ rc4v2_key_lengths) then
        Ok (InitFromScratch PdfEncrypt_new userPassword ownerPassword
              algorithm keyLength 3 (Z.lor PERMS_DEFAULT protection) true)
      else Raise InvalidEncryptionDict
  | _ => Raise InvalidEnumValue
  end.

(** [PdfEncryptAESV2::PdfEncryptAESV2(userPassword, ownerPassword, protection)] *)
Definition PdfEncryptAESV2_create (userPassword ownerPassword : list byte)
    (protection : Z) : PdfEncrypt :=
  InitFromScratch PdfEncrypt_new userPassword ownerPassword AESV2 L128 4
    (Z.lor PERMS_DEFAULT protection) true.

(** [PdfEncryptAESV3::PdfEncryptAESV3(userPassword, ownerPassword, revision,
    protection)]; [revision] is 5 or 6. *)
Definition PdfEncryptAESV3_create (userPassword ownerPassword : list byte)
    (revision : nat) (protection : Z) : PdfEncryptAESV3 :=
  {| aesv3_base :=
       InitFromScratch PdfEncrypt_new userPassword ownerPassword
         (if bool_decide (revision = 6%nat) then AESV3R6 else AESV3R5)
         L256 revision (Z.lor PERMS_DEFAULT protection) true;
     m_ueValue := zeros 32; m_oeValue := zeros 32; m_permsValue := zeros 16 |}.

(** [PdfEncrypt::Create] *)
Definition Create (userPassword ownerPassword : list byte) (protection : Z)
    (algorithm : PdfEncryptionAlgorithm) (keyLength : nat)
  : result PdfEncryptPtr :=
  if negb (IsEncryptionEnabled algorithm) then Raise UnsupportedFilter
  else
    match algorithm with
    | AESV3R5 =>
        if bool_decide (keyLength ≠ Unknown ∧ keyLength ≠ L256)
        then Raise InvalidEncryptionDict
        else Ok (EncAESV3 (PdfEncryptAESV3_create userPassword ownerPassword 5
                             protection))
    | AESV3R6 =>
        if bool_decide (keyLength ≠ Unknown ∧ keyLength ≠ L256)
        then Raise InvalidEncryptionDict
        else Ok (EncAESV3 (PdfEncryptAESV3_create userPassword ownerPassword 6
                             protection))
    | RC4V2 | RC4V1 =>
        e ← PdfEncryptRC4_create userPassword ownerPassword protection
              algorithm keyLength;
        Ok (EncRC4 e)
    | AESV2 =>
        if bool_decide (keyLength ≠ Unknown ∧ keyLength ≠ L128)
        then Raise InvalidEncryptionDict
        else Ok (EncAESV2 (PdfEncryptAESV2_create userPassword ownerPassword
                             protection))
    | AlgNone => Raise InvalidEnumValue
    end.

(** ** Family A: key generation and authentication *)

(** [PdfEncryptRC4::GenerateEncryptionKey] and, with the same body,
    [PdfEncryptAESV2::GenerateEncryptionKey]: the new [uValue], [oValue]
    and [encryptionKey] buffers. *)
Definition MD5Base_GenerateEncryptionKey (e : PdfEncrypt)
    (documentId uValue oValue encryptionKey : list byte)
  : result (list byte * list byte * list byte) :=
  let userpswd := PadPassword (m_userPass e) in
  let ownerpswd := PadPassword (m_ownerPass e) in
  let keyLength := GetKeyLengthBytes e in
  ownerKey ← ComputeOwnerKey userpswd ownerpswd keyLength (m_rValue e) false;
  let oValue := memcpy oValue ownerKey 32 in
  '(userKey, encryptionKey) ←
    ComputeEncryptionKey documentId userpswd oValue (m_pValue e) keyLength
      (m_rValue e) (m_EncryptMetadata e) encryptionKey;
  Ok (memcpy uValue userKey 32, oValue, encryptionKey).

(** [PdfEncryptRC4::Authenticate] and, with the same body,
    [PdfEncryptAESV2::Authenticate]. *)
Definition MD5Base_Authenticate (e : PdfEncrypt)
    (password documentId encryptionKey : list byte)
  : result (PdfAuthResult * list byte) :=
  let pswd := PadPassword password in
  let keyLength := GetKeyLengthBytes e in
  '(userKey, encryptionKey) ←
    ComputeEncryptionKey documentId pswd (m_oValue e) (m_pValue e) keyLength
      (m_rValue e) (m_EncryptMetadata e) encryptionKey;
  if CheckKey e userKey (m_uValue e) then Ok (User, encryptionKey)
  else
    userpswd ← ComputeOwnerKey (m_oValue e) pswd keyLength (m_rValue e) true;
    '(userKey, encryptionKey) ←
      ComputeEncryptionKey documentId userpswd (m_oValue e) (m_pValue e)
        keyLength (m_rValue e) (m_EncryptMetadata e) encryptionKey;
    if CheckKey e userKey (m_uValue e) then Ok (Owner, encryptionKey)
    else Ok (Failed, encryptionKey).

(** [PdfEncryptRC4::normalizeKeyLength], on [unsigned]. *)
Definition normalizeKeyLength (keyLength : nat) : nat :=
  let keyLength := (keyLength - keyLength mod 8)%nat in
  Nat.max 40 (Nat.min keyLength 128).


(** ** Family B: the hash [computeHash] *)

(** The variables of the hardening loop: [block], [blockLen], [data] and
    [dataLen]. *)
Record HashLoop : Type := {
  hl_block : list byte;
  hl_blockLen : nat;
  hl_data : list byte;
  hl_dataLen : nat
}.

(** [i < 64 || i < (unsigned)(32 + data[dataLen - 1])] *)
Definition hash_loop_cond (i : nat) (s : HashLoop) : bool :=
  (i <? 64)%nat
  || (i <? 32 + nat_of_byte (hl_data s !!! (hl_dataLen s - 1)%nat))%nat.

(** [sum] of the first 16 bytes of [data]. *)
Definition sum16 (data : list byte) : nat :=
  foldl (λ sum j, (sum + nat_of_byte (data !!! j))%nat) 0%nat (seq 0 16).

(** The SHA variant chosen by [blockLen]. *)
Definition sha_by_blockLen (blockLen : nat) (data : list byte) : list byte :=
  if (blockLen =? 32)%nat then SHA256 data
  else if (blockLen =? 48)%nat then SHA384 data
  else SHA512 data.

Definition hash_loop_body (pswd : list byte) (uValue : option (list byte))
    (s : HashLoop) : HashLoop :=
  let data := pswd ++ take (hl_blockLen s) (hl_block s) in
  let data := match uValue with Some u => data ++ take 48 u | None => data end in
  let dataLen := length data in
  let data := mjoin (replicate 64 data) in
  let dataLen := (dataLen * 64)%nat in
  let data :=
    Aes128CbcUpdate (take 16 (hl_block s)) (take 16 (drop 16 (hl_block s)))
      (take dataLen data) in
  let blockLen := (32 + (sum16 data mod 3) * 16)%nat in
  let digest := sha_by_blockLen blockLen (take dataLen data) in
  {| hl_block := memcpy (hl_block s) digest (length digest);
     hl_blockLen := blockLen; hl_data := data; hl_dataLen := dataLen |}.

(** The [for] loop from index [i].  [bound] caps the number of further
    rounds; the condition of the loop fails at index 287 at the latest, so
    that a cap of 287 or more is never reached.  Returns the final index and
    state. *)
Fixpoint hash_loop (bound : nat) (pswd : list byte)
    (uValue : option (list byte)) (i : nat) (s : HashLoop) : nat * HashLoop :=
  match bound with
  | O => (i, s)
  | S bound =>
      if hash_loop_cond i s
      then hash_loop bound pswd uValue (S i) (hash_loop_body pswd uValue s)
      else (i, s)
  end.

(** [block] is a 64 byte array of which [memcpy(block, hashValue, 32)] sets
    the first half; the other half is written before it is ever read. *)
Definition hash_loop_init (hashValue : list byte) : HashLoop :=
  {| hl_block := memcpy (zeros 64) hashValue 32; hl_blockLen := 32;
     hl_data := []; hl_dataLen := 0 |}.

(** [PdfEncryptAESV3::computeHash]; [pswd] holds [pswdLen] bytes, [salt] at
    least 8 and [uValue], when present, at least 48. *)
Definition computeHash (pswd : list byte) (revision : nat) (salt : list byte)
    (uValue : option (list byte)) : list byte :=
  let hashValue :=
    SHA256 (pswd ++ take 8 salt
            ++ match uValue with Some u => take 48 u | None => [] end) in
  if (5 <? revision)%nat then
    let '(_, s) := hash_loop 287 pswd uValue 0 (hash_loop_init hashValue) in
    memcpy hashValue (hl_block s) 32
  else hashValue.

(** ** Family B: key generation *)

(** [n] draws [rand() % 255], each stored into an [unsigned char]. *)
Fixpoint rand_bytes (n : nat) (rnd : RandState) : list byte * RandState :=
  match n with
  | O => ([], rnd)
  | S n =>
      let '(r, rnd) := rand rnd in
      let '(l, rnd) := rand_bytes n rnd in
      (byte_of_Z (Z.rem r 255) :: l, rnd)
  end.

(** The salt loop of [computeUserKey] and [computeOwnerKey]:
    [vSalt[i]] and [kSalt[i]] are drawn alternately. *)
Fixpoint rand_salts (n : nat) (rnd : RandState)
  : list byte * list byte * RandState :=
  match n with
  | O => ([], [], rnd)
  | S n =>
      let '(v, rnd) := rand rnd in
      let '(k, rnd) := rand rnd in
      let '(vSalt, kSalt, rnd) := rand_salts n rnd in
      (byte_of_Z (Z.rem v 255) :: vSalt, byte_of_Z (Z.rem k 255) :: kSalt, rnd)
  end.

(** [PdfEncryptAESV3::computeUserKey]: the new [uValue] and [ueValue]. *)
Definition computeUserKey (userpswd : list byte) (revision keyLength : nat)
    (encryptionKey uValue ueValue : list byte) (rnd : RandState)
  : list byte * list byte * RandState :=
  let '(vSalt, kSalt, rnd) := rand_salts 8 rnd in
  let hashValue := computeHash userpswd revision vSalt None in
  let uValue := memcpy uValue (take 32 hashValue ++ vSalt ++ kSalt) 48 in
  let hashValue := computeHash userpswd revision kSalt None in
  let wrapped := Aes256Wrap hashValue (take keyLength encryptionKey) in
  (uValue, memcpy ueValue wrapped (length wrapped), rnd).

(** [PdfEncryptAESV3::computeOwnerKey]: the new [oValue] and [oeValue]. *)
Definition computeOwnerKey (ownerpswd : list byte) (revision keyLength : nat)
    (encryptionKey uValue oValue oeValue : list byte) (rnd : RandState)
  : list byte * list byte * RandState :=
  let '(vSalt, kSalt, rnd) := rand_salts 8 rnd in
  let hashValue := computeHash ownerpswd revision vSalt (Some uValue) in
  let oValue := memcpy oValue (take 32 hashValue ++ vSalt ++ kSalt) 48 in
  let hashValue := computeHash ownerpswd revision kSalt (Some uValue) in
  let wrapped := Aes256Wrap hashValue (take keyLength encryptionKey) in
  (oValue, memcpy oeValue wrapped (length wrapped), rnd).

(** [PdfEncryptAESV3::preprocessPassword] *)
Definition preprocessPassword (password : list byte) : result (list byte) :=
  match TrySASLprep password with
  | None => Raise InvalidPassword
  | Some prepd => Ok (take 127 prepd)
  end.

(** [PdfEncryptAESV3::computeEncryptionKey]; [now] is [time(nullptr)]. *)
Definition computeEncryptionKey (now : Z) (keyLength : nat)
    (encryptionKey : list byte) : list byte * RandState :=
  let '(key, rnd) := rand_bytes keyLength (srand (now mod 2 ^ 32)) in
  (memcpy encryptionKey key keyLength, rnd).


(** The 16 bytes of [perms] before encryption. *)
Definition perms_plain (pValue : Z) (encryptMetadata : bool) : list byte :=
  [byte_of_Z (Z.land (Z.shiftr pValue 0) 255);
   byte_of_Z (Z.land (Z.shiftr pValue 8) 255);
   byte_of_Z (Z.land (Z.shiftr pValue 16) 255);
   byte_of_Z (Z.land (Z.shiftr pValue 24) 255);
   xff; xff; xff; xff;
   (if encryptMetadata then x54 else x46);
   x61; x64; x62; x00; x00; x00; x00].

(** [PdfEncryptAESV3::GenerateEncryptionKey]: the descriptor with its new
    [m_ueValue], [m_oeValue], [m_permsValue], and the [uValue], [oValue],
    [encryptionKey] buffers. *)
Definition AESV3_GenerateEncryptionKey (e : PdfEncryptAESV3) (now : Z)
    (uValue oValue encryptionKey : list byte)
  : result (PdfEncryptAESV3 * list byte * list byte * list byte * RandState) :=
  let b := aesv3_base e in
  userpswd ← preprocessPassword (m_userPass b);
  ownerpswd ← preprocessPassword (m_ownerPass b);
  let keyLength := GetKeyLengthBytes b in
  let '(encryptionKey, rnd) := computeEncryptionKey now keyLength encryptionKey in
  let '(uValue, ueValue, rnd) :=
    computeUserKey userpswd (m_rValue b) keyLength encryptionKey uValue
      (m_ueValue e) rnd in
  let '(oValue, oeValue, rnd) :=
    computeOwnerKey ownerpswd (m_rValue b) keyLength encryptionKey uValue
      oValue (m_oeValue e) rnd in
  let perms :=
    Aes256Wrap encryptionKey
      (perms_plain (m_pValue b) (m_EncryptMetadata b)) in
  Ok ({| aesv3_base := b; m_ueValue := ueValue; m_oeValue := oeValue;
         m_permsValue := memcpy (m_permsValue e) perms (length perms) |},
      uValue, oValue, encryptionKey, rnd).

(** [PdfEncryptAESV3::Authenticate] *)
Definition AESV3_Authenticate (e : PdfEncryptAESV3)
    (password encryptionKey : list byte)
  : result (PdfAuthResult * list byte) :=
  let b := aesv3_base e in
  pswd_sasl ← preprocessPassword password;
  let hashValue :=
    computeHash pswd_sasl (m_rValue b) (drop 32 (m_uValue b)) None in
  if CheckKey b hashValue (m_uValue b) then
    let hashValue :=
      computeHash pswd_sasl (m_rValue b) (drop 40 (m_uValue b)) None in
    let key := Aes256Unwrap hashValue (take 32 (m_ueValue e)) in
    Ok (User, memcpy encryptionKey key (length key))
  else
    let hashValue :=
      computeHash pswd_sasl (m_rValue b) (drop 32 (m_oValue b))
        (Some (m_uValue b)) in
    if CheckKey b hashValue (m_oValue b) then
      let hashValue :=
        computeHash pswd_sasl (m_rValue b) (drop 40 (m_oValue b))
          (Some (m_uValue b)) in
      let key := Aes256Unwrap hashValue (take 32 (m_oeValue e)) in
      Ok (Owner, memcpy encryptionKey key (length key))
    else Ok (Failed, encryptionKey).

(** ** The encryption context *)

Record PdfEncryptContext : Type := {
  m_encryptionKey : list byte;
  m_AuthResult : PdfAuthResult;
  m_documentId : list byte;
  m_customCtx : RC4EncryptContext
}.

(** [PdfEncryptContext::PdfEncryptContext()]; the scratch area that
    [GetCustomCtx<RC4EncryptContext>] hands out has the contents [custom]. *)
Definition PdfEncryptContext_new (custom : RC4EncryptContext)
  : PdfEncryptContext :=
  {| m_encryptionKey := zeros 32; m_AuthResult := Unkwnon;
     m_documentId := []; m_customCtx := custom |}.

Definition IsAuthenticated (c : PdfEncryptContext) : bool :=
  bool_decide (m_AuthResult c = User) || bool_decide (m_AuthResult c = Owner).

Definition with_uo (e : PdfEncrypt) (uValue oValue : list byte) : PdfEncrypt :=
  {| m_Algorithm := m_Algorithm e; m_rValue := m_rValue e;
     m_KeyLength := m_KeyLength e; m_pValue := m_pValue e;
     m_uValue := uValue; m_oValue := oValue;
     m_EncryptMetadata := m_EncryptMetadata e;
     m_IsParsed := m_IsParsed e; m_initialized := m_initialized e;
     m_userPass := m_userPass e; m_ownerPass := m_ownerPass e |}.

Definition set_initialized (e : PdfEncrypt) : PdfEncrypt :=
  {| m_Algorithm := m_Algorithm e; m_rValue := m_rValue e;
     m_KeyLength := m_KeyLength e; m_pValue := m_pValue e;
     m_uValue := m_uValue e; m_oValue := m_oValue e;
     m_EncryptMetadata := m_EncryptMetadata e;
     m_IsParsed := m_IsParsed e; m_initialized := true;
     m_userPass := m_userPass e; m_ownerPass := m_ownerPass e |}.

(** The virtual [GenerateEncryptionKey], called on the members [m_uValue],
    [m_oValue] and on the key of the context. *)
Definition GenerateEncryptionKey (p : PdfEncryptPtr) (documentId : list byte)
    (now : Z) (rnd : RandState) (encryptionKey : list byte)
  : result (PdfEncryptPtr * list byte * RandState) :=
  match p with
  | EncRC4 e =>
      '(u, o, key) ←
        MD5Base_GenerateEncryptionKey e documentId (m_uValue e) (m_oValue e)
          encryptionKey;
      Ok (EncRC4 (with_uo e u o), key, rnd)
  | EncAESV2 e =>
      '(u, o, key) ←
        MD5Base_GenerateEncryptionKey e documentId (m_uValue e) (m_oValue e)
          encryptionKey;
      Ok (EncAESV2 (with_uo e u o), key, rnd)
  | EncAESV3 e =>
      '(e', u, o, key, rnd) ←
        AESV3_GenerateEncryptionKey e now (m_uValue (aesv3_base e))
          (m_oValue (aesv3_base e)) encryptionKey;
      Ok (EncAESV3 {| aesv3_base := with_uo (aesv3_base e') u o;
                      m_ueValue := m_ueValue e'; m_oeValue := m_oeValue e';
                      m_permsValue := m_permsValue e' |}, key, rnd)
  end.

Definition map_base (f : PdfEncrypt → PdfEncrypt) (p : PdfEncryptPtr)
  : PdfEncryptPtr :=
  match p with
  | EncRC4 e => EncRC4 (f e)
  | EncAESV2 e => EncAESV2 (f e)
  | EncAESV3 e =>
      EncAESV3 {| aesv3_base := f (aesv3_base e); m_ueValue := m_ueValue e;
                  m_oeValue := m_oeValue e; m_permsValue := m_permsValue e |}
  end.

(** [PdfEncrypt::EnsureEncryptionInitialized] *)
Definition EnsureEncryptionInitialized (p : PdfEncryptPtr)
    (documentId : list byte) (context : PdfEncryptContext) (now : Z)
    (rnd : RandState)
  : result (PdfEncryptPtr * PdfEncryptContext * RandState) :=
  if m_initialized (base p) then
    if negb (IsAuthenticated context) then Raise InternalLogic
    else Ok (p, context, rnd)
  else
    '(p, key, rnd) ←
      GenerateEncryptionKey p documentId now rnd (m_encryptionKey context);
    let p := map_base clearSensitiveInfo p in
    Ok (map_base set_initialized p,
        {| m_encryptionKey := key; m_AuthResult := Owner;
           m_documentId := documentId; m_customCtx := m_customCtx context |},
        rnd).

(** The virtual [Authenticate(password, documentId, ctx, encryptionKey)]. *)
Definition Authenticate_virtual (p : PdfEncryptPtr)
    (password documentId encryptionKey : list byte)
  : result (PdfAuthResult * list byte) :=
  match p with
  | EncRC4 e | EncAESV2 e =>
      MD5Base_Authenticate e password documentId encryptionKey
  | EncAESV3 e => AESV3_Authenticate e password encryptionKey
  end.

(** [PdfEncrypt::Authenticate(password, documentId, context)] *)
Definition Authenticate (p : PdfEncryptPtr) (password documentId : list byte)
    (context : PdfEncryptContext) : result PdfEncryptContext :=
  '(auth, key) ←
    Authenticate_virtual p password documentId (m_encryptionKey context);
  Ok {| m_encryptionKey := key; m_AuthResult := auth;
        m_documentId := documentId; m_customCtx := m_customCtx context |}.


(** ** Object keys *)

Record PdfReference : Type := {
  ObjectNumber : Z;       (* uint32_t *)
  GenerationNumber : Z    (* uint16_t *)
}.

(** [PdfEncryptMD5Base::CreateObjKey]: the 16 bytes of [objkey] and
    [pnKeyLen]. *)
Definition CreateObjKey (e : PdfEncrypt) (encryptionKey : list byte)
    (objref : PdfReference) : list byte * nat :=
  let n := ObjectNumber objref mod 2 ^ 32 in
  let g := GenerationNumber objref mod 2 ^ 32 in
  let keyLength := GetKeyLengthBytes e in
  let nkey :=
    take keyLength encryptionKey
    ++ [byte_of_Z (Z.land 255 n);
        byte_of_Z (Z.land 255 (Z.shiftr n 8));
        byte_of_Z (Z.land 255 (Z.shiftr n 16));
        byte_of_Z (Z.land 255 g);
        byte_of_Z (Z.land 255 (Z.shiftr g 8))] in
  let nkey :=
    if bool_decide (m_Algorithm e = AESV2)
    then nkey ++ [x73; x41; x6c; x54] else nkey in
  (MD5 nkey, if (keyLength <=? 11)%nat then (keyLength + 5)%nat else 16%nat).

(** ** Stream lengths *)

(** Arithmetic on [size_t]. *)
Definition size_max : Z := 2 ^ 64.
Definition wrap_size (z : Z) : Z := z mod size_max.

(** [((length + 15) & ~15) + AES_IV_LENGTH], plus 16 when
    [length % 16 == 0]; shared by [PdfEncryptAESV2::CalculateStreamLength]
    and [PdfEncryptAESV3::CalculateStreamLength]. *)
Definition AES_CalculateStreamLength (length : Z) : Z :=
  let realLength :=
    wrap_size (Z.land (wrap_size (length + 15)) (wrap_size (Z.lnot 15))
               + Z.of_nat AES_IV_LENGTH) in
  if length mod 16 =? 0 then wrap_size (realLength + 16) else realLength.

Definition CalculateStreamLength (p : PdfEncryptPtr) (length : Z) : Z :=
  match p with
  | EncRC4 _ => length
  | EncAESV2 _ | EncAESV3 _ => AES_CalculateStreamLength length
  end.

Definition CalculateStreamOffset (p : PdfEncryptPtr) : nat :=
  match p with
  | EncRC4 _ => 0%nat
  | EncAESV2 _ | EncAESV3 _ => AES_IV_LENGTH
  end.

(** ** One-shot encryption *)

(** The static [AESEncrypt]: the bytes written to [textout]. *)
Definition AESEncrypt (key : list byte) (keyLen : nat) (iv textin : list byte)
    (textlen : nat) : result (list byte) :=
  if bool_decide (keyLen = (L128 / 8)%nat ∨ keyLen = (L256 / 8)%nat)
  then Ok (AesCbcEncrypt (take keyLen key) (take 16 iv) (take textlen textin))
  else Raise InternalLogic.

(** The static [AESDecrypt]: the bytes written to [textout]. *)
Definition AESDecrypt (key : list byte) (keyLen : nat) (iv textin : list byte)
    (textlen : nat) : result (list byte) :=
  if negb (textlen mod 16 =? 0)%nat then Raise InternalLogic
  else if bool_decide (keyLen = (L128 / 8)%nat ∨ keyLen = (L256 / 8)%nat) then
    match AesCbcDecrypt (take keyLen key) (take 16 iv) (take textlen textin) with
    | Some out => Ok out
    | None => Raise InternalLogic
    end
  else Raise InternalLogic.

(** [PdfEncryptAESV2::generateInitialVector] *)
Definition AESV2_generateInitialVector (documentId : list byte) : list byte :=
  MD5 documentId.

(** [PdfEncryptAESV3::generateInitialVector] *)
Definition AESV3_generateInitialVector (rnd : RandState)
  : list byte * RandState :=
  rand_bytes AES_IV_LENGTH rnd.

(** The virtual [Encrypt]: the bytes written to [outStr], from its start,
    and the state of the generator afterwards. *)
Definition Encrypt (p : PdfEncryptPtr) (inStr : list byte) (inLen : nat)
    (context : PdfEncryptContext) (objref : PdfReference) (outLen : nat)
    (rnd : RandState) : result (list byte * RandState) :=
  match p with
  | EncRC4 e =>
      let '(objkey, keylen) := CreateObjKey e (m_encryptionKey context) objref in
      out ← RC4Encrypt objkey keylen inStr inLen outLen;
      Ok (out, rnd)
  | EncAESV2 e =>
      let '(objkey, keylen) := CreateObjKey e (m_encryptionKey context) objref in
      let iv := take 16 (AESV2_generateInitialVector (m_documentId context)) in
      out ← AESEncrypt objkey keylen iv inStr inLen;
      Ok (iv ++ out, rnd)
  | EncAESV3 e =>
      let '(iv, rnd) := AESV3_generateInitialVector rnd in
      out ← AESEncrypt (m_encryptionKey context)
              (GetKeyLengthBytes (aesv3_base e)) iv inStr inLen;
      Ok (iv ++ out, rnd)
  end.

(** The virtual [Decrypt]: the bytes written to [outStr]. *)
Definition Decrypt (p : PdfEncryptPtr) (inStr : list byte) (inLen : nat)
    (context : PdfEncryptContext) (objref : PdfReference) (outLen : nat)
  : result (list byte) :=
  match p with
  | EncRC4 e =>
      let '(objkey, keylen) := CreateObjKey e (m_encryptionKey context) objref in
      RC4Encrypt objkey keylen inStr inLen outLen
  | EncAESV2 e =>
      let '(objkey, keylen) := CreateObjKey e (m_encryptionKey context) objref in
      if (inLen <=? 16)%nat then Ok []
      else AESDecrypt objkey keylen inStr (drop 16 inStr) (inLen - 16)
  | EncAESV3 e =>
      if (inLen <=? 16)%nat then Ok []
      else AESDecrypt (m_encryptionKey context)
             (GetKeyLengthBytes (aesv3_base e)) inStr (drop 16 inStr)
             (inLen - 16)
  end.

(** ** Stream adapters: what the constructors store *)

Record PdfRC4OutputStream : Type := { rc4out_stream : PdfRC4Stream }.

Record PdfRC4InputStream : Type := {
  rc4in_inputLen : nat;
  rc4in_stream : PdfRC4Stream
}.

Record PdfAESInputStream : Type := {
  aes_inputLen : nat;
  aes_inputEof : bool;
  aes_init : bool;
  aes_key : list byte;
  aes_keyLen : nat;
  aes_drainLeft : nat
}.

Definition PdfAESInputStream_new (inputLen : nat) (key : list byte)
    (keylen : nat) : PdfAESInputStream :=
  {| aes_inputLen := inputLen; aes_inputEof := false; aes_init := true;
     aes_key := take keylen key; aes_keyLen := keylen; aes_drainLeft := 0 |}.

Inductive InputStream : Type :=
| RC4Input (s : PdfRC4InputStream)
| AESInput (s : PdfAESInputStream).

Definition with_customCtx (c : PdfEncryptContext) (custom : RC4EncryptContext)
  : PdfEncryptContext :=
  {| m_encryptionKey := m_encryptionKey c; m_AuthResult := m_AuthResult c;
     m_documentId := m_documentId c; m_customCtx := custom |}.

(** The virtual [CreateEncryptionInputStream]; the RC4 constructor updates
    the cache held by the context. *)
Definition CreateEncryptionInputStream (p : PdfEncryptPtr) (inputLen : nat)
    (context : PdfEncryptContext) (objref : PdfReference)
  : InputStream * PdfEncryptContext :=
  match p with
  | EncRC4 e =>
      let '(objkey, keylen) := CreateObjKey e (m_encryptionKey context) objref in
      let '(s, cache) := PdfRC4Stream_new (m_customCtx context) objkey keylen in
      (RC4Input {| rc4in_inputLen := inputLen; rc4in_stream := s |},
       with_customCtx context cache)
  | EncAESV2 e =>
      let '(objkey, keylen) := CreateObjKey e (m_encryptionKey context) objref in
      (AESInput (PdfAESInputStream_new inputLen objkey keylen), context)
  | EncAESV3 e =>
      (AESInput (PdfAESInputStream_new inputLen (m_encryptionKey context) 32),
       context)
  end.

(** The virtual [CreateEncryptionOutputStream]. *)
Definition CreateEncryptionOutputStream (p : PdfEncryptPtr)
    (context : PdfEncryptContext) (objref : PdfReference)
  : result (PdfRC4OutputStream * PdfEncryptContext) :=
  match p with
  | EncRC4 e =>
      let '(objkey, keylen) := CreateObjKey e (m_encryptionKey context) objref in
      let '(s, cache) := PdfRC4Stream_new (m_customCtx context) objkey keylen in
      Ok ({| rc4out_stream := s |}, with_customCtx context cache)
  | EncAESV2 _ => Raise InternalLogic
  | EncAESV3 _ => Raise InternalLogic
  end.

(** [PdfRC4OutputStream::writeBuffer]: the stream afterwards and the bytes
    passed on to the wrapped stream. *)
Definition PdfRC4OutputStream_writeBuffer (s : PdfRC4OutputStream)
    (buffer : list byte) : PdfRC4OutputStream * list byte :=
  let '(st, out) := PdfRC4Stream_Encrypt (rc4out_stream s) buffer in
  ({| rc4out_stream := st |}, out).


(** ** Descriptors parsed from stored values *)

(** [PdfEncryptRC4::PdfEncryptRC4(oValue, uValue, pValue, revision,
    algorithm, keyLength, encryptMetadata)] *)
Definition PdfEncryptRC4_parsed (oValue uValue : list byte) (pValue : Z)
    (revision : nat) (algorithm : PdfEncryptionAlgorithm) (keyLength : nat)
    (encryptMetadata : bool) : result PdfEncrypt :=
  if (length uValue <? 32)%nat then Raise InvalidEncryptionDict
  else if (length oValue <? 32)%nat then Raise InvalidEncryptionDict
  else
    Ok (InitFromValues PdfEncrypt_new algorithm (normalizeKeyLength keyLength)
          (revision mod 256)%nat pValue uValue oValue 32 32 encryptMetadata).

(** [PdfEncryptAESV2::PdfEncryptAESV2(oValue, uValue, pValue,
    encryptMetadata)] *)
Definition PdfEncryptAESV2_parsed (oValue uValue : list byte) (pValue : Z)
    (encryptMetadata : bool) : result PdfEncrypt :=
  if (length oValue <? 32)%nat then Raise InvalidEncryptionDict
  else if (length uValue <? 32)%nat then Raise InvalidEncryptionDict
  else
    Ok (InitFromValues PdfEncrypt_new AESV2 L128 4 pValue uValue oValue 32 32
          encryptMetadata).

(** [PdfEncryptAESV3::PdfEncryptAESV3(oValue, oeValue, uValue, ueValue,
    pValue, permsValue, revision)] *)
Definition PdfEncryptAESV3_parsed (oValue oeValue uValue ueValue : list byte)
    (pValue : Z) (permsValue : list byte) (revision : nat)
  : result PdfEncryptAESV3 :=
  if (length uValue <? 48)%nat then Raise InvalidEncryptionDict
  else if (length oValue <? 48)%nat then Raise InvalidEncryptionDict
  else if (length ueValue <? 32)%nat then Raise InvalidEncryptionDict
  else if (length oeValue <? 32)%nat then Raise InvalidEncryptionDict
  else if (length permsValue <? 16)%nat then Raise InvalidEncryptionDict
  else
    Ok {| aesv3_base :=
            InitFromValues PdfEncrypt_new
              (if bool_decide (revision = 6%nat) then AESV3R6 else AESV3R5)
              L256 (revision mod 256)%nat pValue uValue oValue 48 48 true;
          m_ueValue := take 32 ueValue;
          m_oeValue := take 32 oeValue;
          m_permsValue := take 16 permsValue |}.


(** ** The encryption dictionary *)

(** Modelled from the spec: the object model, whose declarations are not
    part of the sources at hand.  A [PdfObject] is one of the variants
    below; a [PdfDictionary] is its [std::map] from names to objects. *)
Inductive PdfObject : Type :=
| ObjNull
| ObjBool (b : bool)
| ObjNumber (n : Z)          (* int64_t *)
| ObjName (name : string)
| ObjString (raw : list byte)
| ObjReference (r : Z * Z)
| ObjDictionary (d : gmap string PdfObject).

(** Modelled from the spec: [PdfObject::GetNumber], whose code is not part
    of the sources at hand; a typed accessor that returns the number or
    fails with [InvalidDataType] on another variant. *)
Definition GetNumber (o : PdfObject) : result Z :=
  match o with ObjNumber n => Ok n | _ => Raise InvalidDataType end.

(** Modelled from the spec: [PdfObject::GetName], a typed accessor as
    [GetNumber]. *)
Definition GetName (o : PdfObject) : result string :=
  match o with ObjName n => Ok n | _ => Raise InvalidDataType end.

(** Modelled from the spec: [PdfObject::GetString] followed by
    [GetRawData], a typed accessor as [GetNumber]. *)
Definition GetString (o : PdfObject) : result (list byte) :=
  match o with ObjString raw => Ok raw | _ => Raise InvalidDataType end.

(** Modelled from the spec: [PdfObject::GetDictionary], a typed accessor
    as [GetNumber]. *)
Definition GetDictionary (o : PdfObject) : result (gmap string PdfObject) :=
  match o with ObjDictionary d => Ok d | _ => Raise InvalidDataType end.

(** [PdfDictionary::HasKey] *)
Definition HasKey (d : gmap string PdfObject) (key : string) : bool :=
  bool_decide (is_Some (d !! key)).

(** [PdfDictionary::GetKey]: [None] is the null pointer. *)
Definition GetKey (d : gmap string PdfObject) (key : string)
  : option PdfObject := d !! key.

(** [PdfDictionary::MustGetKey] *)
Definition MustGetKey (d : gmap string PdfObject) (key : string)
  : result PdfObject :=
  match GetKey d key with Some o => Ok o | None => Raise NoObject end.

(** [PdfDictionary::findKey]; [indirect] is [GetIndirectObject]. *)
Definition findKey (indirect : Z * Z → option PdfObject)
    (d : gmap string PdfObject) (key : string) : option PdfObject :=
  match GetKey d key with
  | None => None
  | Some (ObjReference r) => indirect r
  | Some o => Some o
  end.

(** [PdfDictionary::MustFindKey] *)
Definition MustFindKey (indirect : Z * Z → option PdfObject)
    (d : gmap string PdfObject) (key : string) : result PdfObject :=
  match findKey indirect d key with Some o => Ok o | None => Raise NoObject end.

(** The values read by the [try] block of [CreateFromObject]. *)
Record EncryptDictValues : Type := {
  lV : Z;                  (* unsigned *)
  rValue : Z;              (* unsigned *)
  pValue : Z;
  oValue : list byte;
  uValue : list byte;
  dict_length : Z;         (* int64_t *)
  encryptMetadata : bool;
  cfmName : string
}.

(** The crypt filter method named by [StmF] through [CF]; the empty name
    when any link of the chain is missing. *)
Definition read_cfmName (d : gmap string PdfObject) : string :=
  match GetKey d "StmF" with
  | Some (ObjName stmf) =>
      match GetKey d "CF" with
      | Some (ObjDictionary cf) =>
          match GetKey cf stmf with
          | Some (ObjDictionary filter) =>
              match GetKey filter "CFM" with
              | Some (ObjName cfm) => cfm
              | _ => ""
              end
          | _ => ""
          end
      | _ => ""
      end
  | _ => ""
  end.

Definition read_values (d : gmap string PdfObject) : result EncryptDictValues :=
  v ← MustGetKey d "V" ≫= GetNumber;
  r ← MustGetKey d "R" ≫= GetNumber;
  p ← MustGetKey d "P" ≫= GetNumber;
  o ← MustGetKey d "O" ≫= GetString;
  u ← MustGetKey d "U" ≫= GetString;
  len ← (if HasKey d "Length"
         then match GetKey d "Length" with
              | Some l => GetNumber l
              | None => Ok 0
              end
         else Ok 0);
  let em :=
    match GetKey d "EncryptMetadata" with
    | Some (ObjBool b) => b
    | _ => true
    end in
  Ok {| lV := v mod 2 ^ 32; rValue := r mod 2 ^ 32;
        pValue := Z.land p 0xFFFFFFFF; oValue := o; uValue := u;
        dict_length := len; encryptMetadata := em;
        cfmName := read_cfmName d |}.

(** [PdfEncrypt::CreateFromObject] *)
Definition CreateFromObject (indirect : Z * Z → option PdfObject)
    (encryptObj : PdfObject) : result PdfEncryptPtr :=
  d ← GetDictionary encryptObj;
  standard ←
    (match GetKey d "Filter" with
     | None => Ok false
     | Some f => name ← GetName f; Ok (bool_decide (name = "Standard"))
     end);
  if negb standard then Raise UnsupportedFilter
  else
    f ← read_values d;
    if bool_decide (lV f = 1 ∧ (rValue f = 2 ∨ rValue f = 3))
       && IsEncryptionEnabled RC4V1
    then
      e ← PdfEncryptRC4_parsed (oValue f) (uValue f) (pValue f)
            (Z.to_nat (rValue f)) RC4V1 L40 (encryptMetadata f);
      Ok (EncRC4 e)
    else if bool_decide ((lV f = 2 ∧ rValue f = 3) ∨ cfmName f = "V2")
            && IsEncryptionEnabled RC4V2
    then
      e ← PdfEncryptRC4_parsed (oValue f) (uValue f) (pValue f)
            (Z.to_nat (rValue f)) RC4V2
            (Z.to_nat (dict_length f mod 2 ^ 32)) (encryptMetadata f);
      Ok (EncRC4 e)
    else if bool_decide (lV f = 4 ∧ rValue f = 4)
            && IsEncryptionEnabled AESV2
    then
      e ← PdfEncryptAESV2_parsed (oValue f) (uValue f) (pValue f)
            (encryptMetadata f);
      Ok (EncAESV2 e)
    else if bool_decide (lV f = 5)
            && ((bool_decide (rValue f = 5) && IsEncryptionEnabled AESV3R5)
                || (bool_decide (rValue f = 6) && IsEncryptionEnabled AESV3R6))
    then
      permsValue ← MustFindKey indirect d "Perms" ≫= GetString;
      oeValue ← MustFindKey indirect d "OE" ≫= GetString;
      ueValue ← MustFindKey indirect d "UE" ≫= GetString;
      e ← PdfEncryptAESV3_parsed (oValue f) oeValue (uValue f) ueValue
            (pValue f) permsValue (Z.to_nat (rValue f));
      Ok (EncAESV3 e)
    else Raise UnsupportedFilter.

(** ** Copies *)

(** [PdfEncryptAESV3::PdfEncryptAESV3(const PdfEncryptAESV3&)]: the base
    is copied, then [std::size(m_permsValue)] bytes are copied into each
    of [m_permsValue], [m_ueValue] and [m_oeValue].  [ue0] and [oe0] are
    the contents of the members of the new object before the copy. *)
Definition PdfEncryptAESV3_copy (ue0 oe0 : list byte) (rhs : PdfEncryptAESV3)
  : PdfEncryptAESV3 :=
  {| aesv3_base := aesv3_base rhs;
     m_permsValue := take 16 (m_permsValue rhs);
     m_ueValue := memcpy ue0 (m_ueValue rhs) 16;
     m_oeValue := memcpy oe0 (m_oeValue rhs) 16 |}.

(** [PdfEncrypt::CreateFromEncrypt].  The [static_cast] to the class named
    by [m_Algorithm] is only defined on a descriptor of that class, which
    is what every constructor builds. *)
Definition CreateFromEncrypt (ue0 oe0 : list byte) (rhs : PdfEncryptPtr)
  : result PdfEncryptPtr :=
  match m_Algorithm (base rhs), rhs with
  | (RC4V1 | RC4V2), EncRC4 e => Ok (EncRC4 e)
  | AESV2, EncAESV2 e => Ok (EncAESV2 e)
  | (AESV3R5 | AESV3R6), EncAESV3 e =>
      Ok (EncAESV3 (PdfEncryptAESV3_copy ue0 oe0 e))
  | AlgNone, _ => Raise InvalidEnumValue
  | _, _ => Raise InternalLogic
  end.


(** ** Definitions used to state the properties *)

(** Successive [RC4Encrypt] passes over a 32 byte buffer, one per key:
    the shape of the 20 round loop of [ComputeOwnerKey]. *)
Definition rc4_rounds (keylen : nat) (keys : list (list byte))
    (d : list byte) : result (list byte) :=
  for_each (λ d k, RC4Encrypt k keylen d 32 32) keys d.

(** The first test of [Authenticate]: is [password] accepted as the user
    password? *)
Definition user_test (p : PdfEncryptPtr)
    (password documentId encryptionKey : list byte) : result bool :=
  match p with
  | EncRC4 e | EncAESV2 e =>
      '(userKey, _) ←
        ComputeEncryptionKey documentId (PadPassword password) (m_oValue e)
          (m_pValue e) (GetKeyLengthBytes e) (m_rValue e)
          (m_EncryptMetadata e) encryptionKey;
      Ok (CheckKey e userKey (m_uValue e))
  | EncAESV3 e =>
      pswd_sasl ← preprocessPassword password;
      Ok (CheckKey (aesv3_base e)
            (computeHash pswd_sasl (m_rValue (aesv3_base e))
               (drop 32 (m_uValue (aesv3_base e))) None)
            (m_uValue (aesv3_base e)))
  end.

(** The outcome of an authentication. *)
Definition auth_result (r : result PdfEncryptContext) : option PdfAuthResult :=
  match r with Ok c => Some (m_AuthResult c) | Raise _ => None end.

End WithBackend.

(** The low [count] bytes of [v], least significant first. *)
Fixpoint le_bytes (count : nat) (v : Z) : list byte :=
  match count with
  | O => []
  | S count => byte_of_Z (v mod 256) :: le_bytes count (v / 256)
  end.

(** The length formula of the block mode, over the integers. *)
Definition block_mode_length (n : Z) : Z :=
  Z.land (n + 15) (Z.lnot 15) + 16 + (if n mod 16 =? 0 then 16 else 0).

(** The selection table of the encryption dictionary codec, read row by
    row: the algorithm for a [(V, R, CFM)] combination, if any. *)
Definition selection_table (V R : Z) (cfm : string)
  : option PdfEncryptionAlgorithm :=
  if bool_decide (V = 1 ∧ (R = 2 ∨ R = 3)) then Some RC4V1
  else if bool_decide ((V = 2 ∧ R = 3) ∨ cfm = "V2") then Some RC4V2
  else if bool_decide (V = 4 ∧ R = 4) then Some AESV2
  else if bool_decide (V = 5 ∧ R = 5) then Some AESV3R5
  else if bool_decide (V = 5 ∧ R = 6) then Some AESV3R6
  else None.

(** The key length in bits that goes with a row of the table. *)
Definition table_key_length (a : PdfEncryptionAlgorithm) (dictLength : Z) : nat :=
  match a with
  | RC4V1 => 40
  | RC4V2 => normalizeKeyLength (Z.to_nat (dictLength mod 2 ^ 32))
  | AESV2 => 128
  | _ => 256
  end.

(** ** A small backend on which the definitions can be run *)

Module Sample.

(** A 64 bit linear congruential step. *)
Definition lcg (a : Z) : Z :=
  (a * 6364136223846793005 + 1442695040888963407) mod 2 ^ 64.

Fixpoint squeeze (n : nat) (a : Z) : list byte :=
  match n with
  | O => []
  | S n => let a := lcg a in byte_of_Z (a / 2 ^ 56) :: squeeze n a
  end.

(** [n] bytes of a checksum of [m]; it only has the size of a digest. *)
Definition digest (n : nat) (m : list byte) : list byte :=
  squeeze n (foldl (λ a b, lcg (a + Z.of_N (Byte.to_N b))) 1 m).

(** Each byte XORed with the previous output byte and a key byte, the IV
    bytes first; it only has the shape of a chained cipher. *)
Fixpoint chain (prev : byte) (key data : list byte) : list byte :=
  match data with
  | [] => []
  | d :: data =>
      let c := byte_xor (byte_xor d prev) (hd x00 key) in
      c :: chain c (tl key ++ [hd x00 key]) data
  end.

Definition mask (key iv data : list byte) : list byte :=
  chain (hd x00 iv) (key ++ iv) data.

Definition backend : Backend :=
  {| MD5 := digest 16;
     SHA256 := digest 32;
     SHA384 := digest 48;
     SHA512 := digest 64;
     Aes128CbcUpdate := mask;
     Aes256Wrap := λ key, mask key (zeros 16);
     Aes256Unwrap := λ key, mask key (zeros 16);
     AesCbcEncrypt := λ key iv data,
       mask key iv (data ++ replicate (16 - length data mod 16)
                             (byte_of_nat (16 - length data mod 16)));
     AesCbcDecrypt := λ key iv data,
       let plain := mask key iv data in
       Some (take (length plain - nat_of_byte (List.last plain x00)) plain);
     hasRc4 := true;
     TrySASLprep := Some;
     RandState := Z;
     srand := λ seed, seed;
     rand := λ s, let s := (s * 1103515245 + 12345) mod 2 ^ 31 in (s, s) |}.

Definition user : list byte := String.list_byte_of_string "user".
Definition owner : list byte := String.list_byte_of_string "owner".
Definition documentId : list byte := byte_of_nat <$> seq 1 16.
Definition context : PdfEncryptContext :=
  PdfEncryptContext_new {| Rc4key := zeros 16; Rc4last := zeros 256 |}.

(** A dictionary of the RC4 row V = 2, R = 3 with Length 100. *)
Definition rc4_dictionary : gmap string PdfObject :=
  <["Filter" := ObjName "Standard"]>
    (<["V" := ObjNumber 2]>
       (<["R" := ObjNumber 3]>
          (<["P" := ObjNumber (-44)]>
             (<["Length" := ObjNumber 100]>
                (<["O" := ObjString (zeros 32)]>
                   (<["U" := ObjString (zeros 32)]> ∅)))))).

(** The same with V = 1, R = 2 and empty O and U values. *)
Definition short_dictionary : gmap string PdfObject :=
  <["Filter" := ObjName "Standard"]>
    (<["V" := ObjNumber 1]>
       (<["R" := ObjNumber 2]>
          (<["P" := ObjNumber (-44)]>
             (<["O" := ObjString []]> (<["U" := ObjString []]> ∅))))).


End Sample.


(** * Properties *)

#[local] Arguments rc4_next : simpl never.
#[local] Arguments rc4_schedule : simpl never.
#[local] Arguments RC4Encrypt : simpl never.
#[local] Arguments MD5 : simpl never.
#[local] Arguments hash_loop_body : simpl never.
#[local] Arguments computeHash : simpl never.
#[local] Arguments Aes256Wrap : simpl never.
#[local] Arguments Aes256Unwrap : simpl never.
#[local] Arguments hash_loop_cond : simpl never.

(** ** Bytes and buffers *)

Lemma byte_xor_involutive a k : byte_xor (byte_xor a k) k = a.
Proof.
  unfold byte_xor. rewrite Byte.to_bits_of_bits.
  rewrite <- (Byte.of_bits_to_bits a) at 2.
  destruct (Byte.to_bits a) as (a0&a1&a2&a3&a4&a5&a6&a7).
  destruct (Byte.to_bits k) as (k0&k1&k2&k3&k4&k5&k6&k7).
  cbn. f_equal.
  repeat (rewrite xorb_assoc, xorb_nilpotent, xorb_false_r). reflexivity.
Qed.

Lemma nat_of_byte_bound b : (nat_of_byte b ≤ 255)%nat.
Proof.
  apply Byte.to_nat_bounded.
Qed.

Lemma memcpy_length dst src n :
  (n ≤ length src)%nat → (n ≤ length dst)%nat →
  length (memcpy dst src n) = length dst.
Proof.
  intros. unfold memcpy. rewrite length_app, length_take, length_drop. lia.
Qed.

Lemma memcpy_take dst src n :
  (n ≤ length src)%nat → take n (memcpy dst src n) = take n src.
Proof.
  intros. unfold memcpy. rewrite take_app_le by (rewrite length_take; lia).
  by rewrite take_take, Nat.min_id.
Qed.

Lemma memcpy_take_le dst src n m :
  (m ≤ n)%nat → (n ≤ length src)%nat →
  take m (memcpy dst src n) = take m src.
Proof.
  intros. rewrite <- (Nat.min_l m n) by done.
  rewrite <- !take_take. by rewrite memcpy_take.
Qed.

Lemma memcpy_all dst src :
  (length dst ≤ length src)%nat →
  memcpy dst src (length dst) = take (length dst) src.
Proof.
  intros. unfold memcpy. rewrite drop_all. apply app_nil_r.
Qed.

(** ** The result monad *)

Tactic Notation "rsimpl" :=
  cbn [mbind result_bind mret result_ret fst snd].
Tactic Notation "rsimpl" "in" hyp(H) :=
  cbn [mbind result_bind mret result_ret fst snd] in H.

Lemma for_each_app {A S} (body : S → A → result S) l1 l2 s :
  for_each body (l1 ++ l2) s = for_each body l1 s ≫= for_each body l2.
Proof.
  revert s. induction l1 as [|x l1 IH]; intros s; cbn; [done|].
  destruct (body s x); cbn; [apply IH|done].
Qed.

Lemma for_each_fmap {A B S} (f : A → B) (body : S → B → result S) l s :
  for_each body (f <$> l) s = for_each (λ s x, body s (f x)) l s.
Proof.
  revert s. induction l as [|x l IH]; intros s; cbn; [done|].
  destruct (body s (f x)); cbn; [apply IH|done].
Qed.

Lemma for_each_ext {A S} (body body' : S → A → result S) l s :
  (∀ s x, body s x = body' s x) → for_each body l s = for_each body' l s.
Proof.
  intros Hext. revert s. induction l as [|x l IH]; intros s; cbn; [done|].
  rewrite Hext. destruct (body' s x); cbn; [apply IH|done].
Qed.

(** ** RC4 is an XOR stream: encrypting twice gives the input back *)

Lemma PdfRC4Stream_Encrypt_length s buf :
  length (snd (PdfRC4Stream_Encrypt s buf)) = length buf.
Proof.
  revert s. induction buf as [|x buf IH]; intros s; cbn; [done|].
  destruct (rc4_next s) as [s1 k].
  specialize (IH s1). destruct (PdfRC4Stream_Encrypt s1 buf) as [s2 out].
  cbn in *. by f_equal.
Qed.

Lemma PdfRC4Stream_Encrypt_involutive s buf :
  snd (PdfRC4Stream_Encrypt s (snd (PdfRC4Stream_Encrypt s buf))) = buf.
Proof.
  revert s. induction buf as [|x buf IH]; intros s; cbn; [done|].
  destruct (rc4_next s) as [s1 k] eqn:Hn.
  specialize (IH s1).
  destruct (PdfRC4Stream_Encrypt s1 buf) as [s2 out]. cbn in *.
  rewrite Hn.
  destruct (PdfRC4Stream_Encrypt s1 out) as [s3 out'] eqn:E. cbn in *.
  by rewrite byte_xor_involutive, IH.
Qed.

Section Properties.
Context {ssl : Backend}.

Lemma RC4Encrypt_length key keylen d n m out :
  RC4Encrypt key keylen d n m = Ok out → length out = Nat.min n (length d).
Proof.
  unfold RC4Encrypt. repeat case_match; try done.
  intros [= <-]. by rewrite PdfRC4Stream_Encrypt_length, length_take.
Qed.

Lemma RC4Encrypt_involutive key keylen d n out :
  RC4Encrypt key keylen d n n = Ok out →
  RC4Encrypt key keylen out n n = Ok (take n d).
Proof.
  intros H. pose proof (RC4Encrypt_length _ _ _ _ _ _ H) as Hlen.
  revert H. unfold RC4Encrypt. repeat case_match; try done.
  intros [= <-]. f_equal.
  match goal with |- context [take n (?o).2] =>
    rewrite (take_ge (o.2)) by lia end.
  apply PdfRC4Stream_Encrypt_involutive.
Qed.

Lemma RC4Encrypt_ok key keylen d n :
  hasRc4 = true → (0 < keylen)%nat → ∃ out, RC4Encrypt key keylen d n n = Ok out.
Proof.
  intros Hrc Hk. unfold RC4Encrypt. rewrite Nat.eqb_refl, Hrc. cbn [negb].
  destruct (Nat.eqb_spec keylen 0); [lia|]. eauto.
Qed.

(** Only the first [keylen] bytes of the key buffer matter. *)
Lemma RC4Encrypt_key_prefix key key' keylen d n m :
  take keylen key = take keylen key' →
  RC4Encrypt key keylen d n m = RC4Encrypt key' keylen d n m.
Proof. intros H. unfold RC4Encrypt. by rewrite H. Qed.

Lemma rc4_rounds_length keylen keys d e :
  length d = 32%nat → rc4_rounds keylen keys d = Ok e → length e = 32%nat.
Proof.
  revert d. induction keys as [|k keys IH]; intros d Hd; cbn.
  - by intros [= <-].
  - destruct (RC4Encrypt k keylen d 32 32) as [d1|] eqn:E; cbn; [|done].
    apply IH. apply RC4Encrypt_length in E. lia.
Qed.

Lemma rc4_rounds_rev keylen keys d e :
  length d = 32%nat →
  rc4_rounds keylen keys d = Ok e → rc4_rounds keylen (rev keys) e = Ok d.
Proof.
  revert d. induction keys as [|k keys IH]; intros d Hd; cbn.
  - by intros [= <-].
  - destruct (RC4Encrypt k keylen d 32 32) as [d1|] eqn:E; cbn; [|done].
    intros Hr. unfold rc4_rounds. rewrite for_each_app.
    pose proof (RC4Encrypt_length _ _ _ _ _ _ E) as Hd1.
    fold (rc4_rounds keylen (rev keys) e).
    rewrite (IH d1) by (done || lia). cbn.
    rewrite (RC4Encrypt_involutive _ _ _ _ _ E). cbn.
    by rewrite take_ge by lia.
Qed.

Lemma rc4_rounds_ok keylen keys d :
  hasRc4 = true → (0 < keylen)%nat → ∃ e, rc4_rounds keylen keys d = Ok e.
Proof.
  intros Hrc Hk. revert d. induction keys as [|k keys IH]; intros d; cbn; [eauto|].
  destruct (RC4Encrypt_ok k keylen d 32 Hrc Hk) as [d1 ->]. cbn. apply IH.
Qed.

Lemma PadPassword_length pw : length (PadPassword pw) = 32%nat.
Proof.
  unfold PadPassword. rewrite length_app, !length_take. cbn. lia.
Qed.

(** The 20 round loop of [ComputeOwnerKey], and the same loop run with
    the keys in reverse order when authenticating. *)
Lemma ComputeOwnerKey_rounds userPad ownerPad keyLength revision auth :
  revision = 3%nat ∨ revision = 4%nat →
  ComputeOwnerKey userPad ownerPad keyLength revision auth =
  let digest := md5_rehash keyLength (MD5 (take 32 ownerPad)) in
  let keys := (λ i, xor_key digest keyLength i) <$> seq 0 20 in
  rc4_rounds keyLength (if auth then rev keys else keys) (take 32 userPad).
Proof.
  intros Hrev. unfold ComputeOwnerKey.
  rewrite bool_decide_eq_true_2 by done.
  cbv zeta. generalize (md5_rehash keyLength (MD5 (take 32 ownerPad))) as dg.
  intros dg. unfold rc4_rounds. destruct auth.
  - change (rev ((λ i, xor_key dg keyLength i) <$> seq 0 20))
      with ((λ i, xor_key dg keyLength (19 - i)) <$> seq 0 20).
    by rewrite for_each_fmap.
  - by rewrite for_each_fmap.
Qed.

(** Recovering the user password from the owner key, any revision. *)
Lemma ComputeOwnerKey_recover userPad ownerPad keyLength revision O :
  length userPad = 32%nat →
  ComputeOwnerKey userPad ownerPad keyLength revision false = Ok O →
  length O = 32%nat
  ∧ ComputeOwnerKey O ownerPad keyLength revision true = Ok userPad.
Proof.
  intros Hu. destruct (decide (revision = 3%nat ∨ revision = 4%nat)) as [Hrev|Hrev].
  - rewrite !ComputeOwnerKey_rounds by done. cbv zeta.
    rewrite (take_ge userPad) by lia. intros HO.
    pose proof (rc4_rounds_length _ _ _ _ Hu HO) as HOl.
    rewrite (take_ge O) by lia. split; [done|].
    by apply rc4_rounds_rev.
  - unfold ComputeOwnerKey. rewrite bool_decide_eq_false_2 by done.
    intros HO. pose proof (RC4Encrypt_length _ _ _ _ _ _ HO) as HOl.
    split; [lia|].
    rewrite (RC4Encrypt_involutive _ _ _ _ _ HO). by rewrite take_ge by lia.
Qed.

(** C2: for revision 3 or 4 and every pair of passwords, the owner-key
    procedure run in authenticate mode (the rounds keyed with digest XOR
    (19 - i)) on the O value computed from those passwords returns the 32
    bytes of the padded user password.  The O value exists whenever the
    backend has RC4 and the key is not empty. *)
Theorem owner_key_recovers_user_password
    (userPassword ownerPassword : list byte) (keyLength revision : nat) :
  revision = 3%nat ∨ revision = 4%nat →
  (hasRc4 = true → (0 < keyLength)%nat →
   ∃ O, ComputeOwnerKey (PadPassword userPassword) (PadPassword ownerPassword)
          keyLength revision false = Ok O)
  ∧ ∀ O,
      ComputeOwnerKey (PadPassword userPassword) (PadPassword ownerPassword)
        keyLength revision false = Ok O →
      ComputeOwnerKey O (PadPassword ownerPassword) keyLength revision true
      = Ok (PadPassword userPassword).
Proof.
  intros Hrev. split.
  - intros Hrc Hk. rewrite ComputeOwnerKey_rounds by done. cbv zeta.
    by apply rc4_rounds_ok.
  - intros O HO.
    by apply (ComputeOwnerKey_recover _ _ _ _ _ (PadPassword_length _) HO).
Qed.


(** ** Family A: what was generated authenticates *)

Lemma RC4Encrypt_Ok_inv key keylen d n m out :
  RC4Encrypt key keylen d n m = Ok out → hasRc4 = true ∧ (0 < keylen)%nat.
Proof.
  unfold RC4Encrypt. destruct hasRc4; cbn; repeat case_match; try done.
  intros _. split; [done|]. apply Nat.eqb_neq in H0. lia.
Qed.

Lemma md5_rehash_length `{!BackendLaws ssl} keyLength digest :
  length (md5_rehash keyLength digest) = 16%nat.
Proof. unfold md5_rehash. cbn [Nat.iter]. apply MD5_length. Qed.

Lemma xor_key_prefix d d' keyLength i :
  take keyLength d = take keyLength d' →
  xor_key d keyLength i = xor_key d' keyLength i.
Proof. unfold xor_key. by intros ->. Qed.

(** The user key does not depend on what the key buffer held before. *)
Lemma ComputeEncryptionKey_userKey `{!BackendLaws ssl}
    documentId userPad ownerKey pValue keyLength revision em key1 key2 uk k1 :
  (keyLength ≤ 16)%nat →
  ComputeEncryptionKey documentId userPad ownerKey pValue keyLength revision
    em key1 = Ok (uk, k1) →
  ∃ k2, ComputeEncryptionKey documentId userPad ownerKey pValue keyLength
          revision em key2 = Ok (uk, k2).
Proof.
  intros Hkl. unfold ComputeEncryptionKey. cbv zeta.
  set (digest := if bool_decide (revision = 3%nat ∨ revision = 4%nat)
                 then md5_rehash keyLength _ else _).
  assert (length digest = 16%nat) as Hd.
  { subst digest. case_bool_decide; [apply md5_rehash_length|apply MD5_length]. }
  assert (take keyLength (memcpy key1 digest keyLength)
          = take keyLength (memcpy key2 digest keyLength)) as Hpre.
  { rewrite !memcpy_take by lia. done. }
  case_bool_decide.
  - erewrite for_each_ext; last first.
    { intros s x. by rewrite (xor_key_prefix _ _ _ _ Hpre). }
    destruct (for_each _ _ _) as [uk'|]; cbn; [|done].
    intros [= <- <-]. eauto.
  - rewrite (RC4Encrypt_key_prefix _ _ _ _ _ _ Hpre).
    destruct (RC4Encrypt _ _ _ _ _) as [uk'|]; cbn; [|done].
    intros [= <- <-]. eauto.
Qed.

Lemma for_each_length {A} (body : list byte → A → result (list byte)) n l s s' :
  (∀ s x s', length s = n → body s x = Ok s' → length s' = n) →
  length s = n → for_each body l s = Ok s' → length s' = n.
Proof.
  intros Hb. revert s. induction l as [|x l IH]; intros s Hs; cbn.
  - by intros [= <-].
  - destruct (body s x) as [s1|] eqn:E; cbn; [|done]. apply IH. eauto.
Qed.

Lemma ComputeEncryptionKey_userKey_length `{!BackendLaws ssl}
    documentId userPad ownerKey pValue keyLength revision em key uk k :
  ComputeEncryptionKey documentId userPad ownerKey pValue keyLength revision
    em key = Ok (uk, k) →
  length uk = 32%nat.
Proof.
  unfold ComputeEncryptionKey. cbv zeta. case_bool_decide.
  - destruct (for_each _ _ _) as [uk'|] eqn:E; cbn; [|done].
    intros [= <- <-]. revert E. apply for_each_length.
    + intros s x s' Hs. destruct (RC4Encrypt _ _ _ _ _) as [out|] eqn:E; cbn; [|done].
      intros [= <-]. apply RC4Encrypt_length in E.
      rewrite memcpy_length; lia.
    + rewrite length_app, length_take, MD5_length, length_replicate. lia.
  - destruct (RC4Encrypt _ _ _ _ _) as [uk'|] eqn:E; cbn; [|done].
    intros [= <- <-]. apply RC4Encrypt_length in E. rewrite E. reflexivity.
Qed.

Lemma for_each_ok_inv {A S} (body : S → A → result S) x l s s' :
  for_each body (x :: l) s = Ok s' → ∃ s1, body s x = Ok s1.
Proof. cbn. destruct (body s x); cbn; [eauto|done]. Qed.

Lemma ComputeEncryptionKey_Ok_inv
    documentId userPad ownerKey pValue keyLength revision em key r :
  ComputeEncryptionKey documentId userPad ownerKey pValue keyLength revision
    em key = Ok r →
  hasRc4 = true ∧ (0 < keyLength)%nat.
Proof.
  unfold ComputeEncryptionKey. cbv zeta. case_bool_decide.
  - destruct (for_each _ _ _) as [uk'|] eqn:E; cbn; [|done]. intros _.
    change (seq 0 20) with (0%nat :: seq 1 19) in E.
    apply for_each_ok_inv in E as [s1 E].
    destruct (RC4Encrypt _ _ _ _ _) as [out|] eqn:E'; [|done].
    by apply RC4Encrypt_Ok_inv in E'.
  - destruct (RC4Encrypt _ _ _ _ _) as [uk'|] eqn:E; cbn; [|done]. intros _.
    by apply RC4Encrypt_Ok_inv in E.
Qed.

Lemma for_each_total {A S} (body : S → A → result S) l s :
  (∀ s x, ∃ s', body s x = Ok s') → ∃ s', for_each body l s = Ok s'.
Proof.
  intros Hb. revert s. induction l as [|x l IH]; intros s; cbn; [eauto|].
  destruct (Hb s x) as [s1 ->]. cbn. apply IH.
Qed.

Lemma ComputeEncryptionKey_total
    documentId userPad ownerKey pValue keyLength revision em key :
  hasRc4 = true → (0 < keyLength)%nat →
  ∃ r, ComputeEncryptionKey documentId userPad ownerKey pValue keyLength
         revision em key = Ok r.
Proof.
  intros Hrc Hk. unfold ComputeEncryptionKey. cbv zeta. case_bool_decide.
  - match goal with |- context [for_each ?b ?l ?s] =>
      destruct (for_each_total b l s) as [uk ->] end; cbn; [|eauto].
    intros s x.
    match goal with |- context [RC4Encrypt ?k ?n ?d 16 16] =>
      destruct (RC4Encrypt_ok k n d 16 Hrc Hk) as [out ->] end. cbn. eauto.
  - match goal with |- context [RC4Encrypt ?k ?n ?d 32 32] =>
      destruct (RC4Encrypt_ok k n d 32 Hrc Hk) as [uk ->] end. cbn. eauto.
Qed.

Lemma ComputeOwnerKey_userPad_prefix userPad userPad' ownerPad keyLength rev a :
  take 32 userPad = take 32 userPad' →
  ComputeOwnerKey userPad ownerPad keyLength rev a
  = ComputeOwnerKey userPad' ownerPad keyLength rev a.
Proof.
  intros H. unfold ComputeOwnerKey. rewrite H. case_bool_decide; [done|].
  unfold RC4Encrypt. by rewrite H.
Qed.

Lemma CheckKey_true e key1 key2 :
  (∀ k, (k < GetKeyLengthBytes e)%nat → key1 !!! k = key2 !!! k) →
  CheckKey e key1 key2 = true.
Proof.
  unfold CheckKey. generalize (GetKeyLengthBytes e) as n. intros n H.
  assert (Forall (λ k, key1 !!! k = key2 !!! k) (seq 0 n)) as HF.
  { apply Forall_forall. intros k Hk%elem_of_seq. apply H. lia. }
  induction HF as [|k l Hk _ IH]; cbn; [done|].
  by rewrite bool_decide_eq_true_2.
Qed.

Lemma lookup_total_memcpy (dst src : list byte) n k :
  (k < n)%nat → (n ≤ length src)%nat → memcpy dst src n !!! k = src !!! k.
Proof.
  intros. unfold memcpy.
  rewrite lookup_total_app_l by (rewrite length_take; lia).
  rewrite !list_lookup_total_alt, lookup_take_lt by lia. done.
Qed.


Lemma MD5Base_generated_authenticates `{!BackendLaws ssl}
    e documentId uValue0 oValue0 key0 u o key key1 :
  (GetKeyLengthBytes e ≤ 16)%nat →
  MD5Base_GenerateEncryptionKey e documentId uValue0 oValue0 key0
  = Ok (u, o, key) →
  let e' := set_initialized (clearSensitiveInfo (with_uo e u o)) in
  (∃ k, MD5Base_Authenticate e' (m_userPass e) documentId key1 = Ok (User, k))
  ∧ (∃ k, MD5Base_Authenticate e' (m_ownerPass e) documentId key1
          = Ok (match user_test (EncRC4 e') (m_ownerPass e) documentId key1 with
                | Ok true => User
                | _ => Owner
                end, k)).
Proof.
  intros Hkl. unfold MD5Base_GenerateEncryptionKey. cbv zeta.
  destruct (ComputeOwnerKey _ _ _ _ _) as [ownerKey|] eqn:HO; rsimpl; [|done].
  destruct (ComputeEncryptionKey _ _ _ _ _ _ _ _) as [[userKey key']|] eqn:HK;
    rsimpl; [|done].
  intros [= <- <- <-].
  pose proof (ComputeOwnerKey_recover _ _ _ _ _ (PadPassword_length _) HO)
    as [HOl Hrec].
  pose proof (ComputeEncryptionKey_userKey_length _ _ _ _ _ _ _ _ _ _ HK) as Hul.
  pose proof (ComputeEncryptionKey_Ok_inv _ _ _ _ _ _ _ _ _ HK) as [Hrc Hpos].
  destruct (ComputeEncryptionKey_userKey _ _ _ _ _ _ _ _ key1 _ _ Hkl HK)
    as [k1 HK1].
  assert (∀ uk, uk = userKey →
    CheckKey (set_initialized (clearSensitiveInfo
                (with_uo e (memcpy uValue0 userKey 32)
                   (memcpy oValue0 ownerKey 32))))
      uk (memcpy uValue0 userKey 32) = true) as Hcheck.
  { intros uk ->. apply CheckKey_true. intros k Hk.
    change (k < GetKeyLengthBytes e)%nat in Hk.
    rewrite lookup_total_memcpy; [done|lia|lia]. }
  split.
  - unfold MD5Base_Authenticate. cbn [set_initialized clearSensitiveInfo with_uo
      m_oValue m_pValue m_rValue m_EncryptMetadata m_uValue].
    change (GetKeyLengthBytes (set_initialized _)) with (GetKeyLengthBytes e).
    rewrite HK1. rsimpl. rewrite Hcheck by done. eauto.
  - unfold MD5Base_Authenticate, user_test.
    cbn [set_initialized clearSensitiveInfo with_uo
      m_oValue m_pValue m_rValue m_EncryptMetadata m_uValue].
    change (GetKeyLengthBytes (set_initialized _)) with (GetKeyLengthBytes e).
    match goal with |- context [ComputeEncryptionKey ?a ?b ?c ?d ?f ?g ?h key1] =>
      destruct (ComputeEncryptionKey_total a b c d f g h key1 Hrc Hpos)
        as [[uk1 k1'] Hfirst] end.
    rewrite Hfirst. rsimpl.
    destruct (CheckKey _ uk1 _) eqn:Hc; [eauto|].
    rewrite (ComputeOwnerKey_userPad_prefix _ ownerKey) by
      (by rewrite memcpy_take by lia).
    rewrite Hrec. rsimpl.
    destruct (ComputeEncryptionKey_userKey _ _ _ _ _ _ _ _ k1' _ _ Hkl HK)
      as [k2 HK2].
    rewrite HK2. rsimpl. rewrite Hcheck by done. eauto.
Qed.


(** ** Family B: the hardening loop of [computeHash] *)

Lemma hash_loop_cond_lt i s : hash_loop_cond i s = true → (i < 287)%nat.
Proof.
  unfold hash_loop_cond.
  pose proof (nat_of_byte_bound (hl_data s !!! (hl_dataLen s - 1)%nat)).
  intros [H1|H1]%orb_true_iff; apply Nat.ltb_lt in H1; lia.
Qed.

Lemma hash_loop_cond_64 i s : (i < 64)%nat → hash_loop_cond i s = true.
Proof.
  intros H. unfold hash_loop_cond. apply orb_true_iff. left.
  by apply Nat.ltb_lt.
Qed.

Lemma sha_by_blockLen_length `{!BackendLaws ssl} sum data :
  length (sha_by_blockLen (32 + (sum mod 3) * 16) data)
  = (32 + (sum mod 3) * 16)%nat.
Proof.
  unfold sha_by_blockLen.
  pose proof (Nat.mod_upper_bound sum 3 ltac:(lia)).
  destruct (Nat.eqb_spec (32 + sum mod 3 * 16) 32) as [->|];
    [apply SHA256_length|].
  destruct (Nat.eqb_spec (32 + sum mod 3 * 16) 48) as [->|];
    [apply SHA384_length|].
  rewrite SHA512_length. lia.
Qed.

Lemma hash_loop_body_block_length `{!BackendLaws ssl} pswd uValue s :
  length (hl_block s) = 64%nat →
  length (hl_block (hash_loop_body pswd uValue s)) = 64%nat.
Proof.
  intros Hs. unfold hash_loop_body. cbv zeta. cbn [hl_block].
  unfold memcpy. rewrite take_ge by lia.
  rewrite length_app, length_drop, sha_by_blockLen_length, Hs.
  match goal with |- context [(?x mod 3)%nat] =>
    pose proof (Nat.mod_upper_bound x 3 ltac:(lia)) end. lia.
Qed.

(** The block written by a round is the digest selected by [blockLen]. *)
Lemma hash_loop_body_sha `{!BackendLaws ssl} pswd uValue s :
  let s' := hash_loop_body pswd uValue s in
  take (hl_blockLen s') (hl_block s')
  = (if (hl_blockLen s' =? 32)%nat then SHA256
     else if (hl_blockLen s' =? 48)%nat then SHA384 else SHA512)
      (take (hl_dataLen s') (hl_data s')).
Proof.
  cbv zeta. unfold hash_loop_body. cbv zeta. cbn [hl_block hl_blockLen hl_data hl_dataLen].
  unfold memcpy. rewrite (take_ge (sha_by_blockLen _ _)) by lia.
  rewrite take_app_length' by (symmetry; apply sha_by_blockLen_length).
  unfold sha_by_blockLen. by repeat case_match.
Qed.

(** The loop runs exactly while its condition holds, whatever cap of at
    least [287 - i] further rounds is imposed. *)
Lemma hash_loop_spec pswd uValue bound i s :
  (287 ≤ i + bound)%nat →
  ∃ n s',
    hash_loop bound pswd uValue i s = (n, s')
    ∧ (i ≤ n)%nat
    ∧ s' = Nat.iter (n - i) (hash_loop_body pswd uValue) s
    ∧ hash_loop_cond n s' = false
    ∧ ∀ j, (i ≤ j < n)%nat →
        hash_loop_cond j (Nat.iter (j - i) (hash_loop_body pswd uValue) s) = true.
Proof.
  revert i s. induction bound as [|bound IH]; intros i s Hb; cbn [hash_loop].
  - exists i, s. rewrite Nat.sub_diag. repeat split; [done| |intros; lia].
    destruct (hash_loop_cond i s) eqn:E; [|done].
    apply hash_loop_cond_lt in E. lia.
  - destruct (hash_loop_cond i s) eqn:E.
    + destruct (IH (S i) (hash_loop_body pswd uValue s) ltac:(lia))
        as (n & s' & Heq & Hle & Hs' & Hc & Hall).
      exists n, s'. split; [done|]. split; [lia|]. split; [|split; [done|]].
      * rewrite Hs'. replace (n - i)%nat with (S (n - S i)) by lia.
        by rewrite Nat.iter_succ_r.
      * intros j Hj. destruct (decide (j = i)) as [->|Hne].
        { by rewrite Nat.sub_diag. }
        replace (j - i)%nat with (S (j - S i)) by lia.
        rewrite Nat.iter_succ_r. apply Hall. lia.
    + exists i, s. rewrite Nat.sub_diag. repeat split; [done|done|intros; lia].
Qed.

Lemma hash_loop_init_length `{!BackendLaws ssl} m :
  length (hl_block (hash_loop_init (SHA256 m))) = 64%nat.
Proof.
  unfold hash_loop_init. cbn [hl_block].
  rewrite memcpy_length;
    [reflexivity|rewrite SHA256_length; lia|unfold zeros; rewrite length_replicate; lia].
Qed.

Lemma iter_block_length `{!BackendLaws ssl} pswd uValue n s :
  length (hl_block s) = 64%nat →
  length (hl_block (Nat.iter n (hash_loop_body pswd uValue) s)) = 64%nat.
Proof.
  intros Hs. induction n as [|n IH]; [done|].
  cbn [Nat.iter nat_rect]. by apply hash_loop_body_block_length.
Qed.

Lemma computeHash_length `{!BackendLaws ssl} pswd revision salt uValue :
  length (computeHash pswd revision salt uValue) = 32%nat.
Proof.
  unfold computeHash. cbv zeta. case_match; [|apply SHA256_length].
  destruct (hash_loop_spec pswd uValue 287 0
              (hash_loop_init (SHA256 (pswd ++ take 8 salt ++
                 match uValue with Some u => take 48 u | None => [] end)))
              ltac:(lia)) as (n & s' & -> & _ & -> & _).
  rewrite memcpy_length; [apply SHA256_length| |rewrite SHA256_length; lia].
  rewrite iter_block_length; [lia|apply hash_loop_init_length].
Qed.

Lemma computeHash_salt pswd revision salt salt' uValue :
  take 8 salt = take 8 salt' →
  computeHash pswd revision salt uValue = computeHash pswd revision salt' uValue.
Proof. intros H. unfold computeHash. by rewrite H. Qed.

Lemma computeHash_uValue pswd revision salt u u' :
  take 48 u = take 48 u' →
  computeHash pswd revision salt (Some u) = computeHash pswd revision salt (Some u').
Proof.
  intros H. unfold computeHash. rewrite H. cbv zeta. case_match; [|done].
  assert (∀ s, hash_loop_body pswd (Some u) s = hash_loop_body pswd (Some u') s)
    as Hb by (intros s; unfold hash_loop_body; by rewrite H).
  assert (∀ bound i s, hash_loop bound pswd (Some u) i s
                       = hash_loop bound pswd (Some u') i s) as Hl.
  { induction bound as [|bound IH]; intros i s; cbn [hash_loop]; [done|].
    by rewrite Hb, IH. }
  by rewrite Hl.
Qed.


(** C6: for every password, salt and optional U value, the hardening loop
    of revision 6 terminates.  There is a round count [n], the same under
    every cap of at least 287 rounds, with 64 <= n <= 287: the condition
    [i < 64 || i < 32 + data[dataLen - 1]] holds before each of the [n]
    rounds and fails after the last.  Every round stores the SHA-256
    digest when its [blockLen] is 32, the SHA-384 digest when 48 and the
    SHA-512 digest otherwise, and the result is the first 32 bytes of the
    last block. *)
Theorem computeHash_hardening_rounds `{!BackendLaws ssl}
    (pswd salt : list byte) (uValue : option (list byte)) (revision : nat) :
  (5 < revision)%nat →
  let body := hash_loop_body pswd uValue in
  let init :=
    hash_loop_init
      (SHA256 (pswd ++ take 8 salt
               ++ match uValue with Some u => take 48 u | None => [] end)) in
  ∃ n,
    (64 ≤ n ≤ 287)%nat
    ∧ (∀ bound, (287 ≤ bound)%nat →
         hash_loop bound pswd uValue 0 init = (n, Nat.iter n body init))
    ∧ (∀ j, (j < n)%nat → hash_loop_cond j (Nat.iter j body init) = true)
    ∧ hash_loop_cond n (Nat.iter n body init) = false
    ∧ (∀ s, let s' := body s in
         take (hl_blockLen s') (hl_block s')
         = (if (hl_blockLen s' =? 32)%nat then SHA256
            else if (hl_blockLen s' =? 48)%nat then SHA384 else SHA512)
             (take (hl_dataLen s') (hl_data s')))
    ∧ computeHash pswd revision salt uValue
      = take 32 (hl_block (Nat.iter n body init))
    ∧ length (computeHash pswd revision salt uValue) = 32%nat.
Proof.
  intros Hrev body init.
  destruct (hash_loop_spec pswd uValue 287 0 init ltac:(lia))
    as (n & s' & Heq & _ & Hs' & Hstop & Hrun).
  rewrite Nat.sub_0_r in Hs'. fold body in Hs'. subst s'.
  assert (∀ j, (j < n)%nat → hash_loop_cond j (Nat.iter j body init) = true)
    as Hrun'.
  { intros j Hj. specialize (Hrun j ltac:(lia)). by rewrite Nat.sub_0_r in Hrun. }
  assert (64 ≤ n ≤ 287)%nat as Hn.
  { split.
    - destruct (decide (n < 64)%nat) as [Hlt|]; [|lia].
      by rewrite (hash_loop_cond_64 _ _ Hlt) in Hstop.
    - destruct (decide (287 < n)%nat) as [Hlt|]; [|lia].
      specialize (Hrun' 287%nat Hlt). apply hash_loop_cond_lt in Hrun'. lia. }
  exists n. split; [done|]. split; [|split; [done|split; [done|split]]].
  - intros bound Hb.
    destruct (hash_loop_spec pswd uValue bound 0 init ltac:(lia))
      as (m & t & Heq' & _ & Ht & Hstop' & Hrun2).
    rewrite Nat.sub_0_r in Ht. fold body in Ht. subst t.
    assert (m = n) as ->; [|done].
    destruct (Nat.lt_trichotomy m n) as [Hlt|[->|Hlt]]; [|done|].
    + by rewrite (Hrun' m Hlt) in Hstop'.
    + specialize (Hrun2 n ltac:(lia)). rewrite Nat.sub_0_r in Hrun2.
      fold body in Hrun2. by rewrite Hrun2 in Hstop.
  - intros s. apply hash_loop_body_sha.
  - assert (computeHash pswd revision salt uValue
            = take 32 (hl_block (Nat.iter n body init))) as Hc.
    { unfold computeHash. cbv zeta.
      destruct (Nat.ltb_spec 5 revision); [|lia].
      fold init. rewrite Heq. unfold memcpy.
      rewrite drop_ge by (rewrite SHA256_length; lia). apply app_nil_r. }
    split; [done|]. apply computeHash_length.
Qed.

(** ** Family B: what was generated authenticates *)

Lemma rand_salts_length n rnd :
  length (rand_salts n rnd).1.1 = n ∧ length (rand_salts n rnd).1.2 = n.
Proof.
  revert rnd. induction n as [|n IH]; intros rnd; cbn [rand_salts]; [done|].
  destruct (rand rnd) as [v rnd1]. destruct (rand rnd1) as [k rnd2].
  specialize (IH rnd2). destruct (rand_salts n rnd2) as [[vS kS] rnd3].
  cbn in *. lia.
Qed.

(** A 48 byte U or O value: hash, validation salt, key salt. *)
Lemma credential_layout (buf hash vSalt kSalt : list byte) :
  length hash = 32%nat → length vSalt = 8%nat → length kSalt = 8%nat →
  let v := memcpy buf (take 32 hash ++ vSalt ++ kSalt) 48 in
  take 48 v = hash ++ vSalt ++ kSalt
  ∧ take 8 (drop 32 v) = vSalt
  ∧ ∀ k, (k < 32)%nat → hash !!! k = v !!! k.
Proof.
  intros Hh Hv Hk. cbv zeta. rewrite (take_ge hash) by lia.
  assert (length (hash ++ vSalt ++ kSalt) = 48%nat) as Hl
    by (rewrite !length_app; lia).
  unfold memcpy. rewrite (take_ge (hash ++ _ ++ _)) by lia.
  split; [|split].
  - by rewrite take_app_length' by done.
  - rewrite <- !app_assoc. rewrite drop_app_length' by done.
    by rewrite take_app_length' by done.
  - intros k Hlt. rewrite <- !app_assoc.
    by rewrite lookup_total_app_l by lia.
Qed.

Lemma AESV3_generated_authenticates `{!BackendLaws ssl}
    e now uValue0 oValue0 key0 e1 U O key rnd key1 documentId :
  (GetKeyLengthBytes (aesv3_base e) ≤ 32)%nat →
  AESV3_GenerateEncryptionKey e now uValue0 oValue0 key0
  = Ok (e1, U, O, key, rnd) →
  let e' :=
    {| aesv3_base :=
         set_initialized (clearSensitiveInfo (with_uo (aesv3_base e1) U O));
       m_ueValue := m_ueValue e1; m_oeValue := m_oeValue e1;
       m_permsValue := m_permsValue e1 |} in
  (∃ k, AESV3_Authenticate e' (m_userPass (aesv3_base e)) key1 = Ok (User, k))
  ∧ (∃ k, AESV3_Authenticate e' (m_ownerPass (aesv3_base e)) key1
          = Ok (match user_test (EncAESV3 e') (m_ownerPass (aesv3_base e))
                        documentId key1 with
                | Ok true => User
                | _ => Owner
                end, k)).
Proof.
  intros Hkl. unfold AESV3_GenerateEncryptionKey. cbv zeta.
  destruct (preprocessPassword (m_userPass _)) as [up|] eqn:Hup; rsimpl; [|done].
  destruct (preprocessPassword (m_ownerPass _)) as [op|] eqn:Hop; rsimpl; [|done].
  destruct (computeEncryptionKey _ _ _) as [ek rnd1].
  unfold computeUserKey, computeOwnerKey.
  pose proof (rand_salts_length 8 rnd1) as [Hv1 Hk1].
  destruct (rand_salts 8 rnd1) as [[vS kS] rnd2]. cbn [fst snd] in Hv1, Hk1.
  pose proof (rand_salts_length 8 rnd2) as [Hv2 Hk2].
  destruct (rand_salts 8 rnd2) as [[vS' kS'] rnd3]. cbn [fst snd] in Hv2, Hk2.
  intros [= <- <- <- <- <-].
  set (rev := m_rValue (aesv3_base e)).
  set (Uv := memcpy uValue0 (take 32 (computeHash up rev vS None) ++ vS ++ kS) 48).
  set (Ov := memcpy oValue0
               (take 32 (computeHash op rev vS' (Some Uv)) ++ vS' ++ kS') 48).
  destruct (credential_layout uValue0 (computeHash up rev vS None) vS kS
              (computeHash_length _ _ _ _) Hv1 Hk1) as (_ & HUs & HUk).
  destruct (credential_layout oValue0 (computeHash op rev vS' (Some Uv)) vS' kS'
              (computeHash_length _ _ _ _) Hv2 Hk2) as (_ & HOs & HOk).
  fold Uv in HUs, HUk. fold Ov in HOs, HOk.
  cbv zeta.
  assert (∀ h, CheckKey (set_initialized (clearSensitiveInfo
                 (with_uo (aesv3_base e) Uv Ov)))
               (computeHash up rev (drop 32 Uv) h) Uv
             = CheckKey (aesv3_base e) (computeHash up rev vS h) Uv) as HcU.
  { intros h. unfold CheckKey.
    rewrite (computeHash_salt _ _ (drop 32 Uv) vS) by (by rewrite HUs, take_ge by lia).
    done. }
  split.
  - unfold AESV3_Authenticate. cbv zeta.
    cbn [aesv3_base set_initialized clearSensitiveInfo with_uo m_uValue m_oValue
         m_rValue m_ueValue m_oeValue].
    rewrite Hup. rsimpl. fold rev.
    rewrite HcU, CheckKey_true; [eauto|].
    intros k Hk. apply HUk. lia.
  - unfold AESV3_Authenticate, user_test. cbv zeta.
    cbn [aesv3_base set_initialized clearSensitiveInfo with_uo m_uValue m_oValue
         m_rValue m_ueValue m_oeValue].
    rewrite Hop. rsimpl. fold rev.
    destruct (CheckKey _ (computeHash op rev (drop 32 Uv) None) Uv); [eauto|].
    rewrite (computeHash_salt _ _ (drop 32 Ov) vS') by (by rewrite HOs, take_ge by lia).
    rewrite CheckKey_true; [eauto|].
    intros k Hk. apply HOk.
    change (k < GetKeyLengthBytes (aesv3_base e))%nat in Hk. lia.
Qed.


(** ** Descriptors created from passwords *)

Lemma rc4v2_key_lengths_bound keyLength :
  keyLength ∈ rc4v2_key_lengths → (keyLength ≤ 128)%nat.
Proof.
  assert (Forall (λ x, x ≤ 128)%nat rc4v2_key_lengths) as HF
    by (unfold rc4v2_key_lengths; repeat constructor; lia).
  intros H. by apply (proj1 (Forall_forall _ _) HF).
Qed.

(** What [Create] builds: the class, the passwords, the permissions, a
    key of at most 16 (RC4, AES-128) or 32 (AES-256) bytes, and a
    descriptor whose keys are not generated yet. *)
Lemma Create_inv userPassword ownerPassword protection algorithm keyLength p :
  Create userPassword ownerPassword protection algorithm keyLength = Ok p →
  m_userPass (base p) = userPassword
  ∧ m_ownerPass (base p) = ownerPassword
  ∧ m_pValue (base p) = Z.lor PERMS_DEFAULT protection
  ∧ m_initialized (base p) = false
  ∧ match p with
    | EncRC4 e | EncAESV2 e => (GetKeyLengthBytes e ≤ 16)%nat
    | EncAESV3 e => (GetKeyLengthBytes (aesv3_base e) ≤ 32)%nat
    end.
Proof.
  unfold Create. destruct (IsEncryptionEnabled algorithm); cbn [negb]; [|done].
  destruct algorithm; try done.
  - (* RC4V1 *)
    unfold PdfEncryptRC4_create. repeat case_bool_decide; rsimpl; try done;
      intros [= <-]; cbn; repeat split; try done; subst;
      unfold GetKeyLengthBytes; cbn; lia.
  - (* RC4V2 *)
    unfold PdfEncryptRC4_create. case_bool_decide as Hu; rsimpl.
    + intros [= <-]. cbn. repeat split; try done;
        unfold GetKeyLengthBytes; cbn; lia.
    + case_bool_decide as Hin; rsimpl; [|done].
      intros [= <-]. cbn [base InitFromScratch m_userPass m_ownerPass m_pValue
        m_initialized PdfEncrypt_new]. repeat split; try done.
      unfold GetKeyLengthBytes. cbn [m_KeyLength].
      apply rc4v2_key_lengths_bound in Hin.
      apply Nat.Div0.div_le_upper_bound. cbn [m_KeyLength InitFromScratch]. lia.
  - (* AESV2 *)
    case_bool_decide; [done|]. intros [= <-]. cbn. repeat split; try done;
      unfold GetKeyLengthBytes; cbn; lia.
  - (* AESV3R5 *)
    case_bool_decide; [done|]. intros [= <-]. cbn. repeat split; try done;
      unfold GetKeyLengthBytes; cbn; lia.
  - (* AESV3R6 *)
    case_bool_decide; [done|]. intros [= <-]. cbn. repeat split; try done;
      unfold GetKeyLengthBytes; cbn; lia.
Qed.

Lemma auth_result_Authenticate p password documentId context a k :
  Authenticate_virtual p password documentId (m_encryptionKey context)
  = Ok (a, k) →
  auth_result (Authenticate p password documentId context) = Some a.
Proof. intros H. unfold Authenticate. by rewrite H. Qed.

(** C1, as the code has it: after creating a descriptor from scratch and
    generating its key and validation values, authenticating with the
    user password yields [User]; authenticating with the owner password
    yields [Owner] unless the owner password is itself accepted by the
    user-password test, which is tried first and then yields [User]; this
    is the case whenever both passwords are the same. *)
Theorem create_then_authenticate `{!BackendLaws ssl}
    (userPassword ownerPassword : list byte) (protection : Z)
    (algorithm : PdfEncryptionAlgorithm) (keyLength : nat)
    (documentId : list byte) (context0 context : PdfEncryptContext)
    (now : Z) (rnd rnd' : RandState) (p p' : PdfEncryptPtr)
    (context' : PdfEncryptContext) :
  Create userPassword ownerPassword protection algorithm keyLength = Ok p →
  EnsureEncryptionInitialized p documentId context0 now rnd
  = Ok (p', context', rnd') →
  auth_result (Authenticate p' userPassword documentId context) = Some User
  ∧ auth_result (Authenticate p' ownerPassword documentId context)
    = Some (match user_test p' ownerPassword documentId
                    (m_encryptionKey context) with
            | Ok true => User
            | _ => Owner
            end)
  ∧ (ownerPassword = userPassword →
     auth_result (Authenticate p' ownerPassword documentId context)
     = Some User).
Proof.
  intros (Hu & Ho & _ & Hinit & Hkl)%Create_inv.
  unfold EnsureEncryptionInitialized. rewrite Hinit.
  destruct (GenerateEncryptionKey _ _ _ _ _) as [[[p1 key] rnd1]|] eqn:Hgen;
    rsimpl; [|done].
  intros [= <- <- <-].
  assert (auth_result (Authenticate (map_base set_initialized
            (map_base clearSensitiveInfo p1)) userPassword documentId context)
          = Some User
          ∧ auth_result (Authenticate (map_base set_initialized
              (map_base clearSensitiveInfo p1)) ownerPassword documentId context)
            = Some (match user_test (map_base set_initialized
                            (map_base clearSensitiveInfo p1)) ownerPassword
                            documentId (m_encryptionKey context) with
                    | Ok true => User
                    | _ => Owner
                    end)) as [HU HO].
  { destruct p as [e|e|e]; cbn [GenerateEncryptionKey base] in *.
    - destruct (MD5Base_GenerateEncryptionKey _ _ _ _ _) as [[[u o] k]|] eqn:E;
        rsimpl in Hgen; [|done].
      injection Hgen as ? ? ?; cbn [base] in *; subst.
      destruct (MD5Base_generated_authenticates _ _ _ _ _ _ _ _
                  (m_encryptionKey context) Hkl E) as [[k1 H1] [k2 H2]].
      split; eapply auth_result_Authenticate; cbn [Authenticate_virtual map_base];
        [apply H1|apply H2].
    - destruct (MD5Base_GenerateEncryptionKey _ _ _ _ _) as [[[u o] k]|] eqn:E;
        rsimpl in Hgen; [|done].
      injection Hgen as ? ? ?; cbn [base] in *; subst.
      destruct (MD5Base_generated_authenticates _ _ _ _ _ _ _ _
                  (m_encryptionKey context) Hkl E) as [[k1 H1] [k2 H2]].
      split; eapply auth_result_Authenticate; cbn [Authenticate_virtual map_base];
        [apply H1|apply H2].
    - destruct (AESV3_GenerateEncryptionKey _ _ _ _ _)
        as [[[[[e1 u] o] k] rnd2]|] eqn:E; rsimpl in Hgen; [|done].
      injection Hgen as ? ? ?; cbn [base] in *; subst.
      destruct (AESV3_generated_authenticates _ _ _ _ _ _ _ _ _ _
                  (m_encryptionKey context) documentId Hkl E)
        as [[k1 H1] [k2 H2]].
      split; eapply auth_result_Authenticate; cbn [Authenticate_virtual map_base];
        [apply H1|apply H2]. }
  split; [done|]. split; [done|]. by intros ->.
Qed.


End Properties.

(** ** Integer facts behind the length and object-key formulas *)

Lemma land_lnot_15 x : Z.land x (Z.lnot 15) = 16 * (x / 16).
Proof.
  rewrite <- Z.ldiff_land. change 15 with (Z.ones 4).
  rewrite Z.ldiff_ones_r by lia.
  rewrite Z.shiftl_mul_pow2, Z.shiftr_div_pow2 by lia.
  change (2 ^ 4) with 16. lia.
Qed.

Lemma land_wrap_size x y :
  Z.land (wrap_size x) (wrap_size y) = wrap_size (Z.land x y).
Proof.
  unfold wrap_size, size_max. rewrite <- !Z.land_ones by lia.
  apply Z.bits_inj'. intros i Hi. rewrite !Z.land_spec.
  destruct (Z.testbit x i), (Z.testbit y i), (Z.testbit (Z.ones 64) i); done.
Qed.

Lemma block_mode_length_closed n : block_mode_length n = 16 * (n / 16) + 32.
Proof.
  unfold block_mode_length. rewrite land_lnot_15.
  destruct (Z.eqb_spec (n mod 16) 0) as [H|H].
  - replace ((n + 15) / 16) with (n / 16); [lia|].
    pose proof (Z.div_mod n 16 ltac:(lia)).
    apply (Z.div_unique _ _ _ 15); lia.
  - pose proof (Z.div_mod n 16 ltac:(lia)).
    pose proof (Z.mod_pos_bound n 16 ltac:(lia)).
    replace ((n + 15) / 16) with (n / 16 + 1); [lia|].
    apply (Z.div_unique _ _ _ (n mod 16 - 1)); lia.
Qed.

Lemma land_255 x : Z.land 255 x = x mod 256.
Proof. rewrite Z.land_comm. change 255 with (Z.ones 8). by rewrite Z.land_ones. Qed.

Lemma mod_div_mod x k :
  0 ≤ k ≤ 24 → (x mod 2 ^ 32) / 2 ^ k mod 256 = x / 2 ^ k mod 256.
Proof.
  intros Hk. change 256 with (2 ^ 8).
  rewrite <- !Z.land_ones by lia.
  apply Z.bits_inj'. intros i Hi. rewrite !Z.land_spec.
  rewrite !Z.div_pow2_bits by lia.
  destruct (Z.ltb_spec i 8).
  - rewrite Z.land_spec, (Z.ones_spec_low 32) by lia. by rewrite andb_true_r.
  - rewrite Z.ones_spec_high by lia. by rewrite !andb_false_r.
Qed.

Lemma byte_of_Z_mod x : byte_of_Z (x mod 256) = byte_of_Z x.
Proof. unfold byte_of_Z. by rewrite Z.mod_mod by lia. Qed.

(** The three masked shifts of [CreateObjKey] are the low bytes, least
    significant first, of the number itself. *)
Lemma le_bytes_3 x :
  let n := x mod 2 ^ 32 in
  [byte_of_Z (Z.land 255 n); byte_of_Z (Z.land 255 (n ≫ 8));
   byte_of_Z (Z.land 255 (n ≫ 16))] = le_bytes 3 x.
Proof.
  cbv zeta. cbn [le_bytes]. rewrite !land_255, !Z.shiftr_div_pow2 by lia.
  rewrite !byte_of_Z_mod.
  rewrite <- (byte_of_Z_mod (x mod 2 ^ 32)), <- (byte_of_Z_mod (_ / 2 ^ 8)),
    <- (byte_of_Z_mod (_ / 2 ^ 16)).
  pose proof (mod_div_mod x 0 ltac:(lia)) as H0.
  rewrite Z.pow_0_r, !Z.div_1_r in H0.
  rewrite H0, !mod_div_mod by lia. rewrite !byte_of_Z_mod.
  rewrite Z.div_div by lia. done.
Qed.

Lemma le_bytes_2 x :
  let g := x mod 2 ^ 32 in
  [byte_of_Z (Z.land 255 g); byte_of_Z (Z.land 255 (g ≫ 8))] = le_bytes 2 x.
Proof.
  pose proof (le_bytes_3 x) as H. cbv zeta in *. cbn [le_bytes] in *.
  by injection H as -> -> _.
Qed.

Section Codec.
Context {ssl : Backend}.

(** C7: for every plaintext length [n] (a [size_t]), the block mode length
    (AES-128 and AES-256) is [((n + 15) & ~15) + 16] plus 16 when [n] is a
    multiple of 16, computed on [size_t]; it is that number itself as long
    as it is representable, and it is always the padded length
    [16 * (n / 16) + 32].  In running-state (RC4) mode the length is [n]. *)
Theorem stream_length_accounting (p : PdfEncryptPtr) (n : Z) :
  0 ≤ n < size_max →
  match p with
  | EncRC4 _ => CalculateStreamLength p n = n
  | EncAESV2 _ | EncAESV3 _ =>
      CalculateStreamLength p n = wrap_size (block_mode_length n)
      ∧ (n + 48 ≤ size_max →
         CalculateStreamLength p n = block_mode_length n
         ∧ block_mode_length n = 16 * (n / 16) + 32)
  end.
Proof.
  intros Hn.
  assert (AES_CalculateStreamLength n = wrap_size (block_mode_length n)) as Hw.
  { unfold AES_CalculateStreamLength, block_mode_length. cbv zeta.
    rewrite land_wrap_size. unfold wrap_size, AES_IV_LENGTH.
    change (Z.of_nat 16) with 16.
    set (A := Z.land (n + 15) (Z.lnot 15)).
    destruct (n mod 16 =? 0).
    - rewrite Zplus_mod_idemp_l.
      replace (A mod size_max + 16 + 16) with (A mod size_max + 32) by lia.
      rewrite Zplus_mod_idemp_l. f_equal. lia.
    - rewrite Zplus_mod_idemp_l. f_equal. lia. }
  assert (n + 48 ≤ size_max →
          wrap_size (block_mode_length n) = block_mode_length n) as Hs.
  { intros Hb. unfold wrap_size. apply Z.mod_small.
    rewrite block_mode_length_closed.
    pose proof (Z.div_mod n 16 ltac:(lia)).
    pose proof (Z.mod_pos_bound n 16 ltac:(lia)).
    assert (0 ≤ n / 16) by (apply Z.div_pos; lia). lia. }
  destruct p; cbn [CalculateStreamLength]; [done| |];
    (split; [done|]; intros Hb; split;
     [by rewrite Hw, Hs|apply block_mode_length_closed]).
Qed.

(** The length computed for a 17 byte payload under AES-128. *)
Lemma stream_length_accounting_witness :
  0 ≤ 17 < size_max
  ∧ CalculateStreamLength (EncAESV2 (PdfEncryptAESV2_create [] [] 0)) 17 = 48.
Proof.
  assert (0 ≤ 17 < size_max) as H by (unfold size_max; lia).
  split; [exact H|].
  destruct (stream_length_accounting
              (EncAESV2 (PdfEncryptAESV2_create [] [] 0)) 17 H) as [-> _].
  reflexivity.
Defined.

(** C4: in the RC4 and AES-128 families the per-object key is the MD5
    digest of the first [keyLength] key bytes, the low 3 bytes of the object
    number and the low 2 bytes of the generation number, least significant
    first, followed for AES-128 only by the salt 73 41 6C 54, cut to
    [min (keyLength + 5) 16] bytes.  The AES-256 family derives no object
    key: the adapter it creates holds the first 32 bytes of the document key
    with length 32, and its one-shot transforms do not depend on the
    object reference. *)
Theorem object_key_derivation :
  (∀ (e : PdfEncrypt) (encryptionKey : list byte) (objref : PdfReference),
     let keyLength := GetKeyLengthBytes e in
     let '(objkey, keylen) := CreateObjKey e encryptionKey objref in
     keylen = Nat.min (keyLength + 5) 16
     ∧ take keylen objkey
       = take (Nat.min (keyLength + 5) 16)
           (MD5 (take keyLength encryptionKey
                 ++ le_bytes 3 (ObjectNumber objref)
                 ++ le_bytes 2 (GenerationNumber objref)
                 ++ (if bool_decide (m_Algorithm e = AESV2)
                     then [x73; x41; x6c; x54] else []))))
  ∧ (∀ (e : PdfEncryptAESV3) (inputLen : nat) (context : PdfEncryptContext)
       (objref : PdfReference),
       ∃ s, CreateEncryptionInputStream (EncAESV3 e) inputLen context objref
            = (AESInput s, context)
            ∧ aes_key s = take 32 (m_encryptionKey context)
            ∧ aes_keyLen s = 32%nat)
  ∧ (∀ (e : PdfEncryptAESV3) inStr inLen context outLen rnd
       (objref objref' : PdfReference),
       Encrypt (EncAESV3 e) inStr inLen context objref outLen rnd
       = Encrypt (EncAESV3 e) inStr inLen context objref' outLen rnd
       ∧ Decrypt (EncAESV3 e) inStr inLen context objref outLen
         = Decrypt (EncAESV3 e) inStr inLen context objref' outLen).
Proof.
  split; [|split].
  - intros e key objref. cbv zeta. unfold CreateObjKey. cbv zeta.
    assert ((if (GetKeyLengthBytes e <=? 11)%nat
             then (GetKeyLengthBytes e + 5)%nat else 16%nat)
            = Nat.min (GetKeyLengthBytes e + 5) 16) as ->.
    { destruct (Nat.leb_spec (GetKeyLengthBytes e) 11); lia. }
    split; [done|]. f_equal. f_equal.
    pose proof (le_bytes_3 (ObjectNumber objref)) as H3.
    pose proof (le_bytes_2 (GenerationNumber objref)) as H2.
    cbv zeta in H3, H2. rewrite <- H3, <- H2.
    case_bool_decide; by rewrite <- ?app_assoc.
  - intros e inputLen context objref. eexists. split; [reflexivity|]. done.
  - done.
Qed.

(** C3, as the code has it: [CreateEncryptionOutputStream] builds an
    adapter for the RC4 variants only; for the AES-128 variant and for the
    AES-256 variant alike it fails with [InternalLogic], whatever the
    context and the object reference. *)
Theorem output_stream_support (p : PdfEncryptPtr) (context : PdfEncryptContext)
    (objref : PdfReference) :
  match p with
  | EncRC4 _ =>
      ∃ s context', CreateEncryptionOutputStream p context objref
                    = Ok (s, context')
  | EncAESV2 _ | EncAESV3 _ =>
      CreateEncryptionOutputStream p context objref = Raise InternalLogic
  end.
Proof.
  destruct p as [e|e|e]; cbn [CreateEncryptionOutputStream]; [|done|done].
  destruct (CreateObjKey e _ objref) as [objkey keylen].
  destruct (PdfRC4Stream_new _ objkey keylen) as [s cache]. eauto.
Qed.

(** C10: whatever the algorithm family, the descriptor that [Create]
    builds from plaintext passwords stores the requested protection flags
    OR-ed with the default bits 0xFFFFF0C0. *)
Theorem created_permissions (userPassword ownerPassword : list byte)
    (protection : Z) (algorithm : PdfEncryptionAlgorithm) (keyLength : nat)
    (p : PdfEncryptPtr) :
  Create userPassword ownerPassword protection algorithm keyLength = Ok p →
  m_pValue (base p) = Z.lor protection 0xFFFFF0C0.
Proof.
  rewrite Z.lor_comm. fold PERMS_DEFAULT.
  unfold Create. destruct (IsEncryptionEnabled algorithm); cbn [negb]; [|done].
  destruct algorithm; try done; unfold PdfEncryptRC4_create;
    repeat case_bool_decide; cbn [mbind result_bind]; try done;
    by intros [= <-].
Qed.

(** ** Initialisation vectors *)




(** ** The encryption dictionary codec *)

Lemma IsEncryptionEnabled_rc4 algorithm :
  hasRc4 = true → algorithm ≠ AlgNone → IsEncryptionEnabled algorithm = true.
Proof.
  intros Hrc Hne. unfold IsEncryptionEnabled, GetEnabledEncryptionAlgorithms.
  rewrite Hrc. by destruct algorithm.
Qed.

Lemma IsEncryptionEnabled_aes algorithm :
  algorithm = AESV2 ∨ algorithm = AESV3R5 ∨ algorithm = AESV3R6 →
  IsEncryptionEnabled algorithm = true.
Proof.
  unfold IsEncryptionEnabled, GetEnabledEncryptionAlgorithms.
  intros [->|[->| ->]]; by destruct hasRc4.
Qed.

Lemma IsEncryptionEnabled_no_rc4 algorithm :
  hasRc4 = false → algorithm = RC4V1 ∨ algorithm = RC4V2 →
  IsEncryptionEnabled algorithm = false.
Proof.
  unfold IsEncryptionEnabled, GetEnabledEncryptionAlgorithms.
  intros -> [->| ->]; done.
Qed.

(** With RC4 available, [CreateFromObject] calls the constructor of the
    row that [selection_table] gives for the parsed values. *)
Lemma CreateFromObject_standard indirect d f :
  GetKey d "Filter" = Some (ObjName "Standard") →
  read_values d = Ok f →
  hasRc4 = true →
  CreateFromObject indirect (ObjDictionary d)
  = match selection_table (lV f) (rValue f) (cfmName f) with
    | Some RC4V1 =>
        e ← PdfEncryptRC4_parsed (oValue f) (uValue f) (pValue f)
              (Z.to_nat (rValue f)) RC4V1 L40 (encryptMetadata f);
        Ok (EncRC4 e)
    | Some RC4V2 =>
        e ← PdfEncryptRC4_parsed (oValue f) (uValue f) (pValue f)
              (Z.to_nat (rValue f)) RC4V2
              (Z.to_nat (dict_length f mod 2 ^ 32)) (encryptMetadata f);
        Ok (EncRC4 e)
    | Some AESV2 =>
        e ← PdfEncryptAESV2_parsed (oValue f) (uValue f) (pValue f)
              (encryptMetadata f);
        Ok (EncAESV2 e)
    | Some (AESV3R5 | AESV3R6) =>
        permsValue ← MustFindKey indirect d "Perms" ≫= GetString;
        oeValue ← MustFindKey indirect d "OE" ≫= GetString;
        ueValue ← MustFindKey indirect d "UE" ≫= GetString;
        e ← PdfEncryptAESV3_parsed (oValue f) oeValue (uValue f) ueValue
              (pValue f) permsValue (Z.to_nat (rValue f));
        Ok (EncAESV3 e)
    | _ => Raise UnsupportedFilter
    end.
Proof.
  intros HF Hread Hrc. unfold CreateFromObject.
  cbn [GetDictionary mbind result_bind]. rewrite HF.
  cbn [GetName mbind result_bind]. rewrite bool_decide_eq_true_2 by done.
  cbn [negb]. rewrite Hread. cbn [mbind result_bind].
  rewrite !IsEncryptionEnabled_rc4 by done. rewrite !andb_true_r.
  unfold selection_table.
  repeat case_bool_decide; try reflexivity; exfalso; lia || naive_solver.
Qed.

Lemma PdfEncryptRC4_parsed_inv o u p r alg len em e :
  PdfEncryptRC4_parsed o u p r alg len em = Ok e →
  m_Algorithm e = alg ∧ m_KeyLength e = normalizeKeyLength len
  ∧ m_pValue e = p ∧ m_rValue e = (r mod 256)%nat
  ∧ m_EncryptMetadata e = em
  ∧ take 32 (m_uValue e) = take 32 u ∧ take 32 (m_oValue e) = take 32 o.
Proof.
  unfold PdfEncryptRC4_parsed.
  destruct (Nat.ltb_spec (length u) 32); [done|].
  destruct (Nat.ltb_spec (length o) 32); [done|].
  intros [= <-]. cbn. rewrite !memcpy_take by done. done.
Qed.

Lemma PdfEncryptAESV2_parsed_inv o u p em e :
  PdfEncryptAESV2_parsed o u p em = Ok e →
  m_Algorithm e = AESV2 ∧ m_KeyLength e = 128%nat
  ∧ m_pValue e = p ∧ m_rValue e = 4%nat
  ∧ m_EncryptMetadata e = em
  ∧ take 32 (m_uValue e) = take 32 u ∧ take 32 (m_oValue e) = take 32 o.
Proof.
  unfold PdfEncryptAESV2_parsed.
  destruct (Nat.ltb_spec (length o) 32); [done|].
  destruct (Nat.ltb_spec (length u) 32); [done|].
  intros [= <-]. cbn. rewrite !memcpy_take by done. done.
Qed.

Lemma PdfEncryptAESV3_parsed_inv o oe u ue p perms r e :
  PdfEncryptAESV3_parsed o oe u ue p perms r = Ok e →
  m_Algorithm (aesv3_base e) = (if bool_decide (r = 6%nat) then AESV3R6 else AESV3R5)
  ∧ m_KeyLength (aesv3_base e) = 256%nat
  ∧ m_pValue (aesv3_base e) = p ∧ m_rValue (aesv3_base e) = (r mod 256)%nat
  ∧ take 48 (m_uValue (aesv3_base e)) = take 48 u
  ∧ take 48 (m_oValue (aesv3_base e)) = take 48 o
  ∧ m_ueValue e = take 32 ue ∧ m_oeValue e = take 32 oe
  ∧ m_permsValue e = take 16 perms.
Proof.
  unfold PdfEncryptAESV3_parsed.
  destruct (Nat.ltb_spec (length u) 48); [done|].
  destruct (Nat.ltb_spec (length o) 48); [done|].
  destruct (Nat.ltb_spec (length ue) 32); [done|].
  destruct (Nat.ltb_spec (length oe) 32); [done|].
  destruct (Nat.ltb_spec (length perms) 16); [done|].
  intros [= <-]. cbn. rewrite !memcpy_take by done. done.
Qed.

Lemma selection_table_inv V R cfm alg :
  selection_table V R cfm = Some alg →
  alg ≠ AlgNone ∧ (alg = AESV3R5 → R = 5) ∧ (alg = AESV3R6 → R = 6).
Proof.
  unfold selection_table. repeat case_bool_decide; intros [= <-];
    repeat split; try done; lia.
Qed.

Lemma bind_not_raise {A B} (m : result A) (f : A → result B) x :
  (∀ e, m = Raise e → e ≠ x) → (∀ a, m = Ok a → f a ≠ Raise x) →
  m ≫= f ≠ Raise x.
Proof.
  intros He Ha. destruct m as [a|e]; cbn [mbind result_bind]; [by apply Ha|].
  intros [= ->]. by apply (He x).
Qed.

Lemma bind_Ok_inv {A B} (m : result A) (f : A → result B) b :
  m ≫= f = Ok b → ∃ a, m = Ok a ∧ f a = Ok b.
Proof. destruct m as [a|e]; cbn [mbind result_bind]; [eauto|done]. Qed.

Lemma MustFindKey_GetString_err indirect d key e :
  MustFindKey indirect d key ≫= GetString = Raise e → e ≠ UnsupportedFilter.
Proof.
  unfold MustFindKey. destruct (findKey indirect d key) as [[]|];
    cbn [mbind result_bind GetString]; by intros [= <-].
Qed.

Lemma PdfEncryptAESV3_parsed_err o oe u ue p perms r e :
  PdfEncryptAESV3_parsed o oe u ue p perms r = Raise e →
  e = InvalidEncryptionDict.
Proof.
  unfold PdfEncryptAESV3_parsed. repeat case_match; by intros [= <-].
Qed.

(** The AES-256 rows of the table. *)
Lemma AESV3_row indirect d f alg :
  (alg = AESV3R5 ∧ rValue f = 5) ∨ (alg = AESV3R6 ∧ rValue f = 6) →
  let created :=
    permsValue ← MustFindKey indirect d "Perms" ≫= GetString;
    oeValue ← MustFindKey indirect d "OE" ≫= GetString;
    ueValue ← MustFindKey indirect d "UE" ≫= GetString;
    e ← PdfEncryptAESV3_parsed (oValue f) oeValue (uValue f) ueValue
          (pValue f) permsValue (Z.to_nat (rValue f));
    Ok (EncAESV3 e) in
  created ≠ Raise UnsupportedFilter
  ∧ (∀ p, created = Ok p →
       m_Algorithm (base p) = alg
       ∧ m_KeyLength (base p) = table_key_length alg (dict_length f)
       ∧ m_pValue (base p) = pValue f
       ∧ match p with
         | EncRC4 _ => alg = RC4V1 ∨ alg = RC4V2
         | EncAESV2 _ => alg = AESV2
         | EncAESV3 _ => alg = AESV3R5 ∨ alg = AESV3R6
         end)
  ∧ (alg = AESV3R5 ∨ alg = AESV3R6 →
     ∀ perms oe ue,
       findKey indirect d "Perms" = Some (ObjString perms) →
       findKey indirect d "OE" = Some (ObjString oe) →
       findKey indirect d "UE" = Some (ObjString ue) →
       if bool_decide (48 ≤ length (uValue f) ∧ 48 ≤ length (oValue f)
                       ∧ 32 ≤ length ue ∧ 32 ≤ length oe
                       ∧ 16 ≤ length perms)%nat
       then ∃ p, created = Ok p
       else created = Raise InvalidEncryptionDict).
Proof.
  intros Halg. cbv zeta. split; [|split].
  - apply bind_not_raise; [apply MustFindKey_GetString_err|intros perms _].
    apply bind_not_raise; [apply MustFindKey_GetString_err|intros oe _].
    apply bind_not_raise; [apply MustFindKey_GetString_err|intros ue _].
    apply bind_not_raise; [|done].
    by intros e ->%PdfEncryptAESV3_parsed_err.
  - intros p (perms & _ & H)%bind_Ok_inv.
    apply bind_Ok_inv in H as (oe & _ & H).
    apply bind_Ok_inv in H as (ue & _ & H).
    apply bind_Ok_inv in H as (e & E & [= <-]).
    apply PdfEncryptAESV3_parsed_inv in E.
    cbn [base]. destruct E as (-> & -> & -> & _).
    destruct Halg as [[-> ->]|[-> ->]]; cbn; eauto.
  - intros _ perms oe ue Hp Hoe Hue. unfold MustFindKey.
    rewrite Hp, Hoe, Hue. cbn [mbind result_bind GetString].
    unfold PdfEncryptAESV3_parsed.
    destruct (Nat.ltb_spec (length (uValue f)) 48);
      [by rewrite bool_decide_eq_false_2 by lia|].
    destruct (Nat.ltb_spec (length (oValue f)) 48);
      [by rewrite bool_decide_eq_false_2 by lia|].
    destruct (Nat.ltb_spec (length ue) 32);
      [by rewrite bool_decide_eq_false_2 by lia|].
    destruct (Nat.ltb_spec (length oe) 32);
      [by rewrite bool_decide_eq_false_2 by lia|].
    destruct (Nat.ltb_spec (length perms) 16);
      [by rewrite bool_decide_eq_false_2 by lia|].
    rewrite bool_decide_eq_true_2 by done. cbn [mbind result_bind]. eauto.
Qed.

(** C5, as the code has it.  A missing Filter, or a Filter that is a name
    other than Standard, raises [UnsupportedFilter].  With Filter Standard,
    the entries V, R, P, O, U read, and RC4 available in the backend: a
    [(V, R, CFM)] combination outside the table raises [UnsupportedFilter];
    one inside never does, and every descriptor returned has the
    algorithm of its row (rows taken in order), the permissions read, and
    the key length of the row: 40 for RC4V1, the dictionary's Length
    rounded down to a multiple of 8 and clamped to 40..128 for RC4V2, 128
    for AES-128, 256 for AES-256.  A descriptor is returned exactly when
    the stored values have their minimum sizes; otherwise the constructor
    raises [InvalidEncryptionDict]. *)
Theorem dictionary_selection (indirect : Z * Z → option PdfObject)
    (d : gmap string PdfObject) :
  let created := CreateFromObject indirect (ObjDictionary d) in
  (GetKey d "Filter" = None → created = Raise UnsupportedFilter)
  ∧ (∀ name, GetKey d "Filter" = Some (ObjName name) → name ≠ "Standard" →
       created = Raise UnsupportedFilter)
  ∧ (∀ f, GetKey d "Filter" = Some (ObjName "Standard") →
       read_values d = Ok f → hasRc4 = true →
       match selection_table (lV f) (rValue f) (cfmName f) with
       | None => created = Raise UnsupportedFilter
       | Some alg =>
           created ≠ Raise UnsupportedFilter
           ∧ (∀ p, created = Ok p →
                m_Algorithm (base p) = alg
                ∧ m_KeyLength (base p) = table_key_length alg (dict_length f)
                ∧ m_pValue (base p) = pValue f
                ∧ match p with
                  | EncRC4 _ => alg = RC4V1 ∨ alg = RC4V2
                  | EncAESV2 _ => alg = AESV2
                  | EncAESV3 _ => alg = AESV3R5 ∨ alg = AESV3R6
                  end)
           ∧ (alg = RC4V1 ∨ alg = RC4V2 ∨ alg = AESV2 →
                if bool_decide (32 ≤ length (oValue f)
                                ∧ 32 ≤ length (uValue f))%nat
                then ∃ p, created = Ok p
                else created = Raise InvalidEncryptionDict)
           ∧ (alg = AESV3R5 ∨ alg = AESV3R6 →
                ∀ perms oe ue,
                  findKey indirect d "Perms" = Some (ObjString perms) →
                  findKey indirect d "OE" = Some (ObjString oe) →
                  findKey indirect d "UE" = Some (ObjString ue) →
                  if bool_decide (48 ≤ length (uValue f)
                                  ∧ 48 ≤ length (oValue f)
                                  ∧ 32 ≤ length ue ∧ 32 ≤ length oe
                                  ∧ 16 ≤ length perms)%nat
                  then ∃ p, created = Ok p
                  else created = Raise InvalidEncryptionDict)
       end).
Proof.
  cbv zeta. split; [|split].
  - intros HF. unfold CreateFromObject. cbn [GetDictionary mbind result_bind].
    by rewrite HF.
  - intros name HF Hne. unfold CreateFromObject.
    cbn [GetDictionary mbind result_bind]. rewrite HF.
    cbn [GetName mbind result_bind]. by rewrite bool_decide_eq_false_2.
  - intros f HF Hread Hrc.
    rewrite (CreateFromObject_standard indirect d f HF Hread Hrc).
    destruct (selection_table _ _ _) as [alg|] eqn:Hsel; [|done].
    destruct (selection_table_inv _ _ _ _ Hsel) as (Hnone & H5 & H6).
    destruct alg; try done.
    + (* RC4V1 *)
      destruct (PdfEncryptRC4_parsed _ _ _ _ _ _ _) as [e|err] eqn:E;
        cbn [mbind result_bind].
      * split; [done|]. split.
        { intros p [= <-]. apply PdfEncryptRC4_parsed_inv in E.
          cbn [base table_key_length]. destruct E as (-> & -> & -> & _).
          repeat split; eauto. }
        split; [|intros [?|?]; done]. intros _.
        revert E. unfold PdfEncryptRC4_parsed.
        destruct (Nat.ltb_spec (length (uValue f)) 32); [done|].
        destruct (Nat.ltb_spec (length (oValue f)) 32); [done|].
        rewrite bool_decide_eq_true_2 by done. eauto.
      * revert E. unfold PdfEncryptRC4_parsed.
        destruct (Nat.ltb_spec (length (uValue f)) 32);
          [|destruct (Nat.ltb_spec (length (oValue f)) 32); [|done]];
          intros [= <-]; (split; [done|]); (split; [done|]);
          (split; [|intros [?|?]; done]); intros _;
          rewrite bool_decide_eq_false_2 by lia; done.
    + (* RC4V2 *)
      destruct (PdfEncryptRC4_parsed _ _ _ _ _ _ _) as [e|err] eqn:E;
        cbn [mbind result_bind].
      * split; [done|]. split.
        { intros p [= <-]. apply PdfEncryptRC4_parsed_inv in E.
          cbn [base table_key_length]. destruct E as (-> & -> & -> & _).
          repeat split; eauto. }
        split; [|intros [?|?]; done]. intros _.
        revert E. unfold PdfEncryptRC4_parsed.
        destruct (Nat.ltb_spec (length (uValue f)) 32); [done|].
        destruct (Nat.ltb_spec (length (oValue f)) 32); [done|].
        rewrite bool_decide_eq_true_2 by done. eauto.
      * revert E. unfold PdfEncryptRC4_parsed.
        destruct (Nat.ltb_spec (length (uValue f)) 32);
          [|destruct (Nat.ltb_spec (length (oValue f)) 32); [|done]];
          intros [= <-]; (split; [done|]); (split; [done|]);
          (split; [|intros [?|?]; done]); intros _;
          rewrite bool_decide_eq_false_2 by lia; done.
    + (* AESV2 *)
      destruct (PdfEncryptAESV2_parsed _ _ _ _) as [e|err] eqn:E;
        cbn [mbind result_bind].
      * split; [done|]. split.
        { intros p [= <-]. apply PdfEncryptAESV2_parsed_inv in E.
          cbn [base table_key_length]. destruct E as (-> & -> & -> & _).
          repeat split; eauto. }
        split; [|intros [?|?]; done]. intros _.
        revert E. unfold PdfEncryptAESV2_parsed.
        destruct (Nat.ltb_spec (length (oValue f)) 32); [done|].
        destruct (Nat.ltb_spec (length (uValue f)) 32); [done|].
        rewrite bool_decide_eq_true_2 by done. eauto.
      * revert E. unfold PdfEncryptAESV2_parsed.
        destruct (Nat.ltb_spec (length (oValue f)) 32);
          [|destruct (Nat.ltb_spec (length (uValue f)) 32); [|done]];
          intros [= <-]; (split; [done|]); (split; [done|]);
          (split; [|intros [?|?]; done]); intros _;
          rewrite bool_decide_eq_false_2 by lia; done.
    + (* AESV3R5 *)
      specialize (H5 eq_refl).
      destruct (AESV3_row indirect d f AESV3R5) as (Hn & Hp & Hs); [by left|].
      split; [done|]. split; [done|]. split; [intros [?|[?|?]]; done|]. done.
    + (* AESV3R6 *)
      specialize (H6 eq_refl).
      destruct (AESV3_row indirect d f AESV3R6) as (Hn & Hp & Hs); [by right|].
      split; [done|]. split; [done|]. split; [intros [?|[?|?]]; done|]. done.
Qed.

End Codec.

(** C9: the copy constructor of the AES-256 descriptor copies 16 bytes,
    the size of [m_permsValue], into each of the three members.  For the
    descriptor below, whose UE and OE are 32 bytes [xff], the copy made in
    zeroed storage agrees with the original on Perms and on the first 16
    bytes of UE and OE only: bytes 16..31 of UE and OE are not copied. *)
Theorem copy_truncates_wrapped_keys :
  let rhs :=
    {| aesv3_base :=
         InitFromValues PdfEncrypt_new AESV3R6 L256 6 0 (zeros 48) (zeros 48)
           48 48 true;
       m_ueValue := replicate 32 xff; m_oeValue := replicate 32 xff;
       m_permsValue := replicate 16 xff |} in
  ∃ copy,
    CreateFromEncrypt (zeros 32) (zeros 32) (EncAESV3 rhs) = Ok (EncAESV3 copy)
    ∧ m_permsValue copy = m_permsValue rhs
    ∧ take 16 (m_ueValue copy) = take 16 (m_ueValue rhs)
    ∧ take 16 (m_oeValue copy) = take 16 (m_oeValue rhs)
    ∧ m_ueValue copy = replicate 16 xff ++ zeros 16
    ∧ m_oeValue copy = replicate 16 xff ++ zeros 16
    ∧ m_ueValue copy ≠ m_ueValue rhs
    ∧ m_oeValue copy ≠ m_oeValue rhs.
Proof.
  cbv zeta. eexists. split; [reflexivity|]. cbn. repeat split; done.
Qed.

(** ** The sample backend: instances, witnesses and counterexamples *)

Module SampleFacts.
Import Sample.
#[local] Existing Instance backend.

Lemma squeeze_length n a : length (squeeze n a) = n.
Proof.
  revert a. induction n as [|n IH]; intros a; cbn [squeeze]; [done|].
  cbn [length]. by rewrite IH.
Qed.

#[export] Instance laws : BackendLaws backend.
Proof. split; intros m; apply squeeze_length. Qed.

(** The owner-key round trip for the passwords "user" and "owner", a
    128 bit key and revision 3. *)
Lemma owner_key_recovers_user_password_witness :
  (3 = 3 ∨ 3 = 4)%nat
  ∧ ∀ O,
      ComputeOwnerKey (PadPassword user) (PadPassword owner) 16 3 false = Ok O →
      ComputeOwnerKey O (PadPassword owner) 16 3 true = Ok (PadPassword user).
Proof.
  assert (3 = 3 ∨ 3 = 4)%nat as H by (left; reflexivity).
  split; [exact H|].
  exact (proj2 (owner_key_recovers_user_password user owner 16 3 H)).
Defined.

(** Creation, key generation and both authentications for an AES-256
    revision 5 descriptor. *)
Lemma create_then_authenticate_witness :
  ∃ p p' context' rnd',
    Create user owner 4 AESV3R5 Unknown = Ok p
    ∧ EnsureEncryptionInitialized p documentId context 1700000000
        (0 : @RandState backend)
      = Ok (p', context', rnd')
    ∧ auth_result (Authenticate p' user documentId context) = Some User
    ∧ auth_result (Authenticate p' owner documentId context) = Some Owner.
Proof.
  eexists _, _, _, _.
  split; [vm_compute; reflexivity|].
  split; [vm_compute; reflexivity|].
  edestruct (create_then_authenticate (ssl := backend) user owner 4 AESV3R5
               Unknown documentId context context 1700000000
               (0 : @RandState backend))
    as (HU & HO & _); [vm_compute; reflexivity|vm_compute; reflexivity|].
  split; [exact HU|]. rewrite HO. vm_compute. reflexivity.
Defined.

(** The key schedule and the key stream of [PdfRC4Stream] on the usual
    test vector: key "Key", plaintext "Plaintext". *)
Example RC4Encrypt_test_vector :
  RC4Encrypt (String.list_byte_of_string "Key") 3
    (String.list_byte_of_string "Plaintext") 9 9
  = Ok [xbb; xf3; x16; xe8; xd9; x40; xaf; x0a; xd3].
Proof. vm_compute. reflexivity. Qed.

(** C1 as stated fails when both passwords are the same: the password is
    accepted by the user test, so the answer is [User], not [Owner]. *)
Lemma create_then_authenticate_counterexample :
  ¬ (∀ p p' context' rnd',
       Create user user 4 AESV3R5 Unknown = Ok p →
       EnsureEncryptionInitialized p documentId context 1700000000
         (0 : @RandState backend) = Ok (p', context', rnd') →
       auth_result (Authenticate p' user documentId context) = Some User
       ∧ auth_result (Authenticate p' user documentId context) = Some Owner).
Proof.
  intros H.
  edestruct H as [HU HO]; [vm_compute; reflexivity|vm_compute; reflexivity|].
  rewrite HU in HO. discriminate HO.
Qed.

(** The hardening loop for the password "user", revision 6, no U value. *)
Lemma computeHash_hardening_rounds_witness :
  (5 < 6)%nat
  ∧ ∃ n, (64 ≤ n ≤ 287)%nat
         ∧ computeHash user 6 (zeros 8) None
           = take 32 (hl_block (Nat.iter n (hash_loop_body user None)
                                  (hash_loop_init
                                     (SHA256 (user ++ take 8 (zeros 8) ++ []))))).
Proof.
  assert (5 < 6)%nat as H by lia. split; [exact H|].
  destruct (computeHash_hardening_rounds user (zeros 8) None 6 H)
    as (n & Hn & _ & _ & _ & _ & Hc & _).
  exists n. split; [exact Hn|exact Hc].
Defined.

(** Parsing [rc4_dictionary]: an RC4V2 descriptor with a 96 bit key. *)
Lemma dictionary_selection_witness :
  ∃ f p,
    GetKey rc4_dictionary "Filter" = Some (ObjName "Standard")
    ∧ read_values rc4_dictionary = Ok f
    ∧ hasRc4 = true
    ∧ CreateFromObject (λ _, None) (ObjDictionary rc4_dictionary) = Ok p
    ∧ m_Algorithm (base p) = RC4V2
    ∧ m_KeyLength (base p) = 96%nat.
Proof.
  eexists _, _.
  split; [vm_compute; reflexivity|].
  split; [vm_compute; reflexivity|].
  split; [reflexivity|].
  split; [vm_compute; reflexivity|].
  edestruct (dictionary_selection (ssl := backend) (λ _, None) rc4_dictionary)
    as (_ & _ & H).
  opose proof* H as H';
    [vm_compute; reflexivity|vm_compute; reflexivity|reflexivity|].
  cbn in H'. destruct H' as (_ & Hp & _).
  edestruct Hp as (Ha & Hk & _); [vm_compute; reflexivity|].
  split; [exact Ha|exact Hk].
Defined.

(** C5 as stated fails on [short_dictionary]: V = 1 and R = 2 is a row of
    the table, yet no descriptor is returned, and the error is
    [InvalidEncryptionDict]. *)
Lemma dictionary_selection_counterexample :
  selection_table 1 2 "" = Some RC4V1
  ∧ CreateFromObject (λ _, None) (ObjDictionary short_dictionary)
    = Raise InvalidEncryptionDict
  ∧ ¬ (∃ p, CreateFromObject (λ _, None) (ObjDictionary short_dictionary)
            = Ok p).
Proof.
  split; [reflexivity|].
  assert (CreateFromObject (λ _, None) (ObjDictionary short_dictionary)
          = Raise InvalidEncryptionDict) as H by (vm_compute; reflexivity).
  split; [exact H|]. intros [p Hp]. rewrite H in Hp. discriminate Hp.
Qed.



(** The permissions stored for an AES-128 descriptor asked to allow
    printing and copying (0x14). *)
Lemma created_permissions_witness :
  Create user owner 0x14 AESV2 Unknown
  = Ok (EncAESV2 (PdfEncryptAESV2_create user owner 0x14))
  ∧ m_pValue (PdfEncryptAESV2_create user owner 0x14) = 0xFFFFF0D4.
Proof.
  assert (Create user owner 0x14 AESV2 Unknown
          = Ok (EncAESV2 (PdfEncryptAESV2_create user owner 0x14))) as H
    by reflexivity.
  split; [exact H|].
  exact (created_permissions user owner 0x14 AESV2 Unknown _ H).
Defined.

(** C3 as stated fails twice: the AES-128 variant has no output adapter,
    and the error of the AES-256 variant is not [NotImplemented]. *)
Lemma output_stream_support_counterexample :
  ¬ ((∃ r, CreateEncryptionOutputStream
             (EncAESV2 (PdfEncryptAESV2_create [] [] 0))
             (PdfEncryptContext_new {| Rc4key := []; Rc4last := [] |})
             {| ObjectNumber := 1; GenerationNumber := 0 |} = Ok r)
     ∧ CreateEncryptionOutputStream
         (EncAESV3 (PdfEncryptAESV3_create [] [] 6 0))
         (PdfEncryptContext_new {| Rc4key := []; Rc4last := [] |})
         {| ObjectNumber := 1; GenerationNumber := 0 |}
       = Raise NotImplemented).
Proof. intros [_ H]. cbn in H. discriminate H. Qed.

End SampleFacts.
